(** * A shallow embedding of [usx_splitter.py] and [cli.py]

    Python values are modelled as follows.
    - An ElementTree [Element] is a node [Elem tag attrib text children tail];
      [attrib] is the element's attribute dict, kept as an association list in
      insertion order (ElementTree serialises attributes in that order); its
      keys are distinct, so [get] (first match) is [dict.get].
    - Python [str] values are [String.string] (ASCII; [str.strip] and
      [int] are modelled on the ASCII whitespace and ASCII digits).
    - Exceptions ([ValueError] from [int], ...) are the [Err] branch of the
      [result] monad.  Of the [print] output only the warnings are kept,
      as a list of log lines.
    - A written file is a [file] record: its path components and the root
      element as [tree.write] serialises it (after [_indent_xml]). *)

From Stdlib Require Import String Ascii List ZArith Bool Lia.
From Stdlib Require Import DecimalString.
From Stdlib Require DecimalZ.
Import ListNotations.
Open Scope Z_scope.

(** ** Python helpers *)

(** [str.isspace] on one ASCII character: \t \n \v \f \r, \x1c-\x1f, space. *)
Definition py_isspace (c : ascii) : bool :=
  let n := nat_of_ascii c in
  (orb (andb (Nat.leb 9 n) (Nat.leb n 13))
       (andb (Nat.leb 28 n) (Nat.leb n 32))).

(** Truthiness of [s.strip()]: some non-whitespace character remains. *)
Definition strip_nonempty (s : string) : bool :=
  existsb (fun c => negb (py_isspace c)) (list_ascii_of_string s).

(** [s.strip()] itself, on the character list. *)
Fixpoint lstrip_l (l : list ascii) : list ascii :=
  match l with
  | c :: r => if py_isspace c then lstrip_l r else l
  | [] => []
  end.

Definition py_strip (s : string) : list ascii :=
  rev (lstrip_l (rev (lstrip_l (list_ascii_of_string s)))).

Definition is_digit (c : ascii) : bool :=
  andb (Nat.leb 48 (nat_of_ascii c)) (Nat.leb (nat_of_ascii c) 57).

Definition digit_val (c : ascii) : Z := Z.of_nat (nat_of_ascii c) - 48.

(** Digits of a base-10 literal for [int(str)]: single underscores are
    allowed between digits. *)
Fixpoint digits_acc (acc : Z) (prev_us : bool) (l : list ascii) : option Z :=
  match l with
  | [] => if prev_us then None else Some acc
  | c :: r =>
      if is_digit c then digits_acc (acc * 10 + digit_val c) false r
      else if andb (Ascii.eqb c "_"%char) (negb prev_us)
           then digits_acc acc true r else None
  end.

Definition py_digits (l : list ascii) : option Z :=
  match l with
  | c :: r => if is_digit c then digits_acc (digit_val c) false r else None
  | [] => None
  end.

(** [int(s)] for a [str] argument: surrounding whitespace, an optional sign,
    then a decimal literal; [None] is Python's [ValueError]. *)
Definition py_int (s : string) : option Z :=
  match py_strip s with
  | "+"%char :: r => py_digits r
  | "-"%char :: r => option_map Z.opp (py_digits r)
  | l => py_digits l
  end.

(** [str(n)] for a Python [int]. *)
Definition py_str_int (z : Z) : string := NilZero.string_of_int (Z.to_int z).

(** [f"{n:02d}"]. *)
Definition fmt02 (z : Z) : string :=
  if andb (0 <=? z) (z <? 10) then ("0" ++ py_str_int z)%string
  else py_str_int z.

(** Python truthiness of an optional [str] ([None] and [""] are false). *)
Definition truthy (o : option string) : bool :=
  match o with Some s => negb (String.eqb s "") | None => false end.

(** ** Exceptions *)

Inductive exc : Type := ValueError.

Inductive result (A : Type) : Type :=
| Ok (a : A)
| Err (e : exc).
Arguments Ok {A} a.
Arguments Err {A} e.

Definition bind {A B} (m : result A) (k : A -> result B) : result B :=
  match m with Ok a => k a | Err e => Err e end.

Notation "x <- m ;; k" := (bind m (fun x => k))
  (at level 61, m at next level, right associativity).

(** ** ElementTree elements *)

Set Warnings "-register-all".

Definition attrs := list (string * string).

Inductive element : Type :=
| Elem (tag : string) (attrib : attrs) (text : option string)
       (children : list element) (tail : option string).

Definition tag (e : element) := let 'Elem t _ _ _ _ := e in t.
Definition attrib (e : element) := let 'Elem _ a _ _ _ := e in a.
Definition text (e : element) := let 'Elem _ _ x _ _ := e in x.
Definition children (e : element) := let 'Elem _ _ _ c _ := e in c.
Definition tail (e : element) := let 'Elem _ _ _ _ t := e in t.

Fixpoint lookup (k : string) (a : attrs) : option string :=
  match a with
  | [] => None
  | (k', v) :: r => if String.eqb k k' then Some v else lookup k r
  end.

(** [element.get(key)]. *)
Definition get (e : element) (k : string) : option string := lookup k (attrib e).

Definition opt_eqb (o : option string) (s : string) : bool :=
  match o with Some v => String.eqb v s | None => false end.

Definition is_none {A} (o : option A) : bool :=
  match o with None => true | Some _ => false end.

(** ** [USXSplitter.extract_chapter_content]

    The loop over [self.usx_content] with its two flags; a [break] ends the
    recursion.  The result is the collected list and [found_start]. *)
Fixpoint ecc_loop (target : string) (in_target found : bool)
    (els : list element) : list element * bool :=
  match els with
  | [] => ([], found)
  | el :: rest =>
      if String.eqb (tag el) "chapter" then
        if andb (opt_eqb (get el "number") target) (is_none (get el "eid")) then
          let '(r, f) := ecc_loop target true true rest in (el :: r, f)
        else if andb (negb (opt_eqb (get el "number") target)) in_target then
          ([], found)
        else if andb (negb (is_none (get el "eid"))) in_target then
          ([el], found)
        else ecc_loop target in_target found rest
      else if in_target then
        let '(r, f) := ecc_loop target in_target found rest in (el :: r, f)
      else ecc_loop target in_target found rest
  end.

(** [chapter_num] is the TOC value; the comparison is with [str(chapter_num)],
    passed here as [target].  Returns the content and the printed lines. *)
Definition extract_chapter_content (usx_content : list element) (target : string)
    : list element * list string :=
  let '(content, found_start) := ecc_loop target false false usx_content in
  (content,
   if found_start then []
   else [("Warning: Chapter " ++ target ++ " start marker not found")%string]).

(** ** [USXSplitter.extract_verses_from_para] *)

(** [int(child.get('number', 0))]. *)
Definition verse_num (child : element) : result Z :=
  match get child "number" with
  | None => Ok 0
  | Some s => match py_int s with Some z => Ok z | None => Err ValueError end
  end.

Definition in_range (start_verse end_verse n : Z) : bool :=
  andb (start_verse <=? n) (n <=? end_verse).

(** The first loop: [has_verses_in_range], with its [break]. *)
Fixpoint has_verses_in_range (s e : Z) (cs : list element) : result bool :=
  match cs with
  | [] => Ok false
  | child :: rest =>
      if String.eqb (tag child) "verse" then
        n <- verse_num child ;;
        if in_range s e n then Ok true else has_verses_in_range s e rest
      else has_verses_in_range s e rest
  end.

(** [if child.tail: current_text += child.tail]. *)
Definition add_tail (cur : string) (child : element) : string :=
  match tail child with
  | Some t => if truthy (Some t) then (cur ++ t)%string else cur
  | None => cur
  end.

(** The second loop: the children appended to [para_copy], in order, and
    the final [current_text]. *)
Fixpoint copy_loop (s e : Z) (cur : string) (cs : list element)
    : result (list element * string) :=
  match cs with
  | [] => Ok ([], cur)
  | child :: rest =>
      if String.eqb (tag child) "verse" then
        n <- verse_num child ;;
        if in_range s e n then
          r <- copy_loop s e (add_tail cur child) rest ;;
          Ok (child :: fst r, snd r)
        else copy_loop s e cur rest
      else
        r <- copy_loop s e (add_tail cur child) rest ;;
        Ok (child :: fst r, snd r)
  end.

Definition extract_verses_from_para (para_element : element) (start_verse end_verse : Z)
    : result (option element) :=
  has <- has_verses_in_range start_verse end_verse (children para_element) ;;
  if negb has then Ok None else
  r <- copy_loop start_verse end_verse "" (children para_element) ;;
  let kids := fst r in
  let current_text :=
    if truthy (text para_element) then
      match text para_element with
      | Some t => (t ++ snd r)%string
      | None => snd r
      end
    else snd r in
  let copy_text := if strip_nonempty current_text then Some current_text else None in
  let para_copy := Elem (tag para_element) (attrib para_element) copy_text kids None in
  if orb (Nat.ltb 0 (length kids))
         (andb (truthy copy_text)
               (match copy_text with Some t => strip_nonempty t | None => false end))
  then Ok (Some para_copy) else Ok None.

(** ** [USXSplitter.extract_verses_for_chunk] ([end_verse] defaults to
    [start_verse]; the driver always uses the default). *)
Definition is_start_marker (el : element) : bool :=
  andb (String.eqb (tag el) "chapter") (is_none (get el "eid")).

Fixpoint evc_loop (s e : Z) (els : list element) : result (list element) :=
  match els with
  | [] => Ok []
  | el :: rest =>
      if String.eqb (tag el) "para" then
        v <- extract_verses_from_para el s e ;;
        r <- evc_loop s e rest ;;
        match v with Some c => Ok (c :: r) | None => Ok r end
      else if is_start_marker el then
        r <- evc_loop s e rest ;; Ok (el :: r)
      else evc_loop s e rest
  end.

Definition extract_verses_for_chunk (chapter_content : list element)
    (start_verse : Z) (end_verse : option Z) : result (list element) :=
  let end_verse := match end_verse with Some v => v | None => start_verse end in
  evc_loop start_verse end_verse chapter_content.

(** ** [USXSplitter.extract_title_content] *)
Definition title_styles : list string := ["s1"; "s2"; "s3"; "mt1"; "mt2"; "mt3"]%string.

Definition opt_in (o : option string) (l : list string) : bool :=
  match o with Some v => existsb (String.eqb v) l | None => false end.

Fixpoint extract_title_content (chapter_content : list element) : list element :=
  match chapter_content with
  | [] => []
  | el :: rest =>
      if andb (String.eqb (tag el) "para") (opt_in (get el "style") title_styles)
      then el :: extract_title_content rest
      else if is_start_marker el then el :: extract_title_content rest
      else extract_title_content rest
  end.

(** ** [USXSplitter._indent_xml]

    [blank o] is [not o or not o.strip()].  [child] after the [for] loop is
    the last child, whose tail is fixed once the loop is over. *)
Definition blank (o : option string) : bool :=
  match o with None => true | Some t => negb (strip_nonempty t) end.

Fixpoint spaces (level : nat) : string :=
  match level with O => "" | S l => ("  " ++ spaces l)%string end.

Definition nl : string := String (ascii_of_nat 10) "".

Definition set_tail (e : element) (t : option string) : element :=
  let 'Elem g a x c _ := e in Elem g a x c t.

Fixpoint fix_last (i : string) (cs : list element) : list element :=
  match cs with
  | [] => []
  | [c] => [if blank (tail c) then set_tail c (Some i) else c]
  | c :: r => c :: fix_last i r
  end.

Fixpoint indent_xml (level : nat) (e : element) {struct e} : element :=
  let i := (nl ++ spaces level)%string in
  let 'Elem g a x cs tl := e in
  match cs with
  | [] =>
      Elem g a x []
        (if andb (negb (Nat.eqb level 0)) (blank tl) then Some i else tl)
  | _ :: _ =>
      let x' := if blank x then Some (i ++ "  ")%string else x in
      let tl' := if blank tl then Some i else tl in
      let cs' := (fix go (l : list element) : list element :=
                    match l with
                    | [] => []
                    | c :: r => indent_xml (S level) c :: go r
                    end) cs in
      Elem g a x' (fix_last i cs') tl'
  end.

(** ** Output files *)

Record file : Type := mkFile { fpath : list string; froot : element }.

(** [ET.Element('usx', version='3.0')] with the given children. *)
Definition usx_root (kids : list element) : element :=
  Elem "usx" [("version", "3.0")]%string None kids None.

(** The hard-coded title text of the book node.  Its non-ASCII characters
    (the registered sign and the Vietnamese letters) are kept as their UTF-8
    bytes. *)
Definition book_title_text : string :=
  "- Biblica® Open Vietnamese Contemporary Bible 2015 (Biblica® Thiên Ban Kinh Thánh Hiện Đại)".

(** [ET.SubElement(usx_root, 'book', code='REV', style='id')]. *)
Definition book_info : element :=
  Elem "book" [("code", "REV"); ("style", "id")]%string (Some book_title_text) [] None.

(** [has_chapter_end]: [elem.tag == 'chapter' and elem.get('eid')]. *)
Definition is_chapter_end (el : element) : bool :=
  andb (String.eqb (tag el) "chapter") (truthy (get el "eid")).

(** [ET.SubElement(usx_root, 'chapter', eid=f'REV {chapter_num}')]. *)
Definition chapter_end (chapter_num : Z) : element :=
  Elem "chapter" [("eid", "REV " ++ py_str_int chapter_num)]%string None [] None.

(** [USXSplitter.create_chunk_file]: the file written (directories are
    created on demand and are not modelled). *)
Definition create_chunk_file (output_dir : string) (chapter_num chunk_num : Z)
    (content : list element) (is_title : bool) : file :=
  let filename := if is_title then "title.usx"%string
                  else (fmt02 chunk_num ++ ".usx")%string in
  let kids :=
    (if is_title then [] else [book_info]) ++ content ++
    (if is_title then []
     else if existsb is_chapter_end content then [] else [chapter_end chapter_num]) in
  mkFile [output_dir; fmt02 chapter_num; filename] (indent_xml 0 (usx_root kids)).

(** ** TOC values

    YAML scalars as [yaml.safe_load] returns them for the TOC: an [int] or a
    [str].  A TOC entry is the mapping [{chapter: ..., chunks: [...]}]. *)
Inductive yval : Type := YInt (z : Z) | YStr (s : string).

Record toc_entry : Type := mkEntry { chapter : yval; chunks : list yval }.

(** [str(v)]. *)
Definition py_str (v : yval) : string :=
  match v with YInt z => py_str_int z | YStr s => s end.

(** [int(v)]. *)
Definition py_int_y (v : yval) : result Z :=
  match v with
  | YInt z => Ok z
  | YStr s => match py_int s with Some z => Ok z | None => Err ValueError end
  end.

(** [v == 'title'] (an [int] is never equal to a [str]). *)
Definition is_title_chunk (v : yval) : bool :=
  match v with YStr s => String.eqb s "title" | YInt _ => false end.

(** ** [USXSplitter.process_chapter]

    The files written, the warnings, and the exception that stopped the loop
    (files already written stay written). *)
Definition chunk_file (output_dir : string) (chapter_num : yval)
    (chapter_content : list element) (chunk : yval) : result file :=
  if is_title_chunk chunk then
    ch <- py_int_y chapter_num ;;
    Ok (create_chunk_file output_dir ch 0 (extract_title_content chapter_content) true)
  else
    chunk_num <- py_int_y chunk ;;
    chunk_content <- extract_verses_for_chunk chapter_content chunk_num None ;;
    ch <- py_int_y chapter_num ;;
    Ok (create_chunk_file output_dir ch chunk_num chunk_content false).

Fixpoint chunk_loop (output_dir : string) (chapter_num : yval)
    (chapter_content : list element) (cs : list yval) : list file * option exc :=
  match cs with
  | [] => ([], None)
  | c :: rest =>
      match chunk_file output_dir chapter_num chapter_content c with
      | Ok f =>
          let '(fs, ex) := chunk_loop output_dir chapter_num chapter_content rest in
          (f :: fs, ex)
      | Err ex => ([], Some ex)
      end
  end.

Definition process_chapter (usx_content : list element) (output_dir : string)
    (chapter_info : toc_entry) : list file * list string * option exc :=
  let chapter_num := chapter chapter_info in
  let '(chapter_content, warn) :=
    extract_chapter_content usx_content (py_str chapter_num) in
  match chapter_content with
  | [] => ([], warn ++
             [("Warning: No content found for chapter " ++ py_str chapter_num)%string],
           None)
  | _ :: _ =>
      let '(fs, ex) := chunk_loop output_dir chapter_num chapter_content
                         (chunks chapter_info) in
      (fs, warn, ex)
  end.

(** ** [USXSplitter.process_front_matter] *)
Definition front_styles : list string :=
  ["h"; "toc1"; "toc2"; "toc3"; "mt1"; "mt2"; "mt3"]%string.

Fixpoint front_loop (els : list element) : list element :=
  match els with
  | [] => []
  | el :: rest =>
      if andb (existsb (String.eqb (tag el)) ["book"; "para"]%string)
              (opt_in (get el "style") front_styles)
      then el :: front_loop rest
      else if String.eqb (tag el) "chapter" then []
      else front_loop rest
  end.

Definition process_front_matter (usx_content : list element) (output_dir : string)
    : list file :=
  match front_loop usx_content with
  | [] => []
  | front_content =>
      [mkFile [output_dir; "front"; "title.usx"]%string
              (indent_xml 0 (usx_root front_content))]
  end.

(** ** [USXSplitter.run] on the loaded TOC and the children of the loaded
    USX root. *)
Fixpoint run_loop (usx_content : list element) (output_dir : string)
    (toc : list toc_entry) : list file * list string * option exc :=
  match toc with
  | [] => ([], [], None)
  | info :: rest =>
      match chapter info with
      | YStr "front" =>
          let fs := process_front_matter usx_content output_dir in
          let '(fs', w', ex') := run_loop usx_content output_dir rest in
          (fs ++ fs', w', ex')
      | _ =>
          let '(fs, w, ex) := process_chapter usx_content output_dir info in
          match ex with
          | Some e => (fs, w, Some e)
          | None =>
              let '(fs', w', ex') := run_loop usx_content output_dir rest in
              (fs ++ fs', w ++ w', ex')
          end
      end
  end.

Record splitter : Type := USXSplitter
  { usx_file_path : string; toc_file_path : string; output_dir : string }.

Definition run (sp : splitter) (toc : list toc_entry) (usx_content : list element)
    : list file * list string * option exc :=
  run_loop usx_content (output_dir sp) toc.

(** ** [cli.main]

    The parsed arguments; [usx_exists] and [toc_exists] are the results of
    [os.path.exists]; [toc] and [usx_content] are what the splitter loads
    from the two files.  The result is the exit status and the files
    written. *)
Record cli_args : Type := mkArgs
  { usx_file : string; toc_file : string; out_dir : string;
    book_code : string; book_title : string; verbose : bool }.

Definition cli_main (args : cli_args) (usx_exists toc_exists : bool)
    (toc : list toc_entry) (usx_content : list element) : Z * list file :=
  if negb usx_exists then (1, [])
  else if negb toc_exists then (1, [])
  else
    let sp := USXSplitter (usx_file args) (toc_file args) (out_dir args) in
    let '(fs, _, ex) := run sp toc usx_content in
    match ex with Some _ => (1, fs) | None => (0, fs) end.

(** ** Vocabulary of the properties *)

(** A chapter start marker for the chapter compared as [target]. *)
Definition is_start_of (target : string) (el : element) : bool :=
  andb (String.eqb (tag el) "chapter")
       (andb (opt_eqb (get el "number") target) (is_none (get el "eid"))).

(** A verse element without a [number] attribute. *)
Definition numberless_verse (c : element) : bool :=
  andb (String.eqb (tag c) "verse") (is_none (get c "number")).

Definition drop_numberless (p : element) : element :=
  let 'Elem g a x cs tl := p in
  Elem g a x (filter (fun c => negb (numberless_verse c)) cs) tl.

(** Some verse marker of the paragraph has a number in [[s, e]]. *)
Definition para_has_in_range (s e : Z) (p : element) : Prop :=
  exists c n, In c (children p) /\ tag c = "verse"%string /\
              verse_num c = Ok n /\ in_range s e n = true.

(** Every verse marker of the paragraph has a number [int] accepts. *)
Definition verses_parse (p : element) : Prop :=
  forall c, In c (children p) -> tag c = "verse"%string -> exists n, verse_num c = Ok n.

(** What one top-level node contributes to a chunk. *)
Inductive contributes (s e : Z) : element -> list element -> Prop :=
| contrib_para_none p :
    tag p = "para"%string -> ~ para_has_in_range s e p ->
    contributes s e p []
| contrib_para_copy p c :
    tag p = "para"%string -> para_has_in_range s e p ->
    extract_verses_from_para p s e = Ok (Some c) ->
    contributes s e p [c]
| contrib_start el :
    tag el <> "para"%string -> is_start_marker el = true ->
    contributes s e el [el]
| contrib_other el :
    tag el <> "para"%string -> is_start_marker el = false ->
    contributes s e el [].

(** The tag and attributes of a node: what [_indent_xml] leaves alone. *)
Definition shape (el : element) : string * attrs := (tag el, attrib el).

(** Top-level chapter-end markers: chapter nodes carrying an [eid]. *)
Definition end_markers (kids : list element) : list element :=
  filter (fun el => andb (String.eqb (tag el) "chapter")
                         (negb (is_none (get el "eid")))) kids.

(** The name of a written file. *)
Definition file_name (f : file) : string := last (fpath f) ""%string.

(** ** The chunk path over a store of element objects

    ElementTree elements are mutable objects shared by reference:
    [para_copy.append(child)] and [usx_root.append(element)] put the very
    object of the source tree into the new document, and [_indent_xml]
    assigns [elem.text] and [elem.tail] in place.  Here an element object
    is a node id in a store; a node lists its children by id. *)
Module Store.

























End Store.

(** ** Sample documents *)

Definition sample_chapter : list element :=
  [Elem "chapter" [("number", "1"); ("style", "c")]%string None [] None;
   Elem "para" [("style", "p")]%string None
     [Elem "verse" [("number", "1")]%string None [] (Some "one"%string);
      Elem "verse" [("number", "2")]%string None [] (Some "two"%string)] None].

(** A verse milestone [<verse number="n" .../>] followed by [t]. *)
Definition verse_marker (n t : string) : element :=
  Elem "verse" [("number", n); ("style", "v")]%string None [] (Some t).

(** A chapter with an explicit USX 3 end marker, which carries an [eid] and
    no [number]. *)
Definition ended_chapter_doc : list element :=
  [Elem "chapter" [("number", "1"); ("style", "c"); ("sid", "REV 1")]%string None [] None;
   Elem "para" [("style", "p")]%string None [verse_marker "1" "one"] None;
   Elem "chapter" [("eid", "REV 1")]%string None [] None;
   Elem "chapter" [("number", "2"); ("style", "c"); ("sid", "REV 2")]%string None [] None].

(** A paragraph with leading text and verses 1 to 5. *)
Definition five_verse_para : element :=
  Elem "para" [("style", "p")]%string (Some "Lead "%string)
    [verse_marker "1" "one "; verse_marker "2" "two "; verse_marker "3" "three ";
     verse_marker "4" "four "; verse_marker "5" "five"] None.

(** A paragraph whose third verse number is not an integer literal. *)
Definition bad_number_para : element :=
  Elem "para" [("style", "p")]%string None
    [verse_marker "1" "one "; verse_marker "2" "two "; verse_marker "3a" "three"] None.

(** Chapter 1 holding [bad_number_para], then chapter 2. *)
Definition bad_number_doc : list element :=
  [Elem "chapter" [("number", "1"); ("style", "c")]%string None [] None;
   bad_number_para;
   Elem "chapter" [("number", "2"); ("style", "c")]%string None [] None;
   Elem "para" [("style", "p")]%string None [verse_marker "1" "one"] None].

(** A book node followed by heading paragraphs, then chapter 1. *)
Definition front_doc : list element :=
  [Elem "book" [("code", "REV"); ("style", "id")]%string (Some "Revelation"%string) [] None;
   Elem "para" [("style", "h")]%string (Some "Revelation"%string) [] None;
   Elem "para" [("style", "mt1")]%string (Some "Revelation"%string) [] None;
   Elem "chapter" [("number", "1"); ("style", "c")]%string None [] None;
   Elem "para" [("style", "p")]%string None [verse_marker "1" "one"] None].

(** [python -m dbl2writersrc.cli GEN.usx toc.yml output/ --book-code GEN]. *)
Definition gen_args : cli_args :=
  mkArgs "GEN.usx" "toc.yml" "output/" "GEN" book_title_text false.



(** ** Vocabulary of the paragraph properties *)

(** Some child of [cs] is a verse marker whose number lies in [[s, e]]. *)
Definition verse_in (s e : Z) (cs : list element) : Prop :=
  exists c n, In c cs /\ tag c = "verse"%string /\ verse_num c = Ok n /\
              in_range s e n = true.

(** Every verse marker among [cs] has a number [int()] accepts. *)
Definition all_parse (cs : list element) : Prop :=
  forall c, In c cs -> tag c = "verse"%string -> exists n, verse_num c = Ok n.

(** [None] read as the empty string. *)
Definition opt_text (o : option string) : string :=
  match o with Some t => t | None => ""%string end.

(** ** Vocabulary of the further properties *)

(** A child the paragraph copy keeps: any non-verse child, and a verse
    marker numbered in [[s, e]]. *)
Definition kept_child (s e : Z) (child : element) : bool :=
  if String.eqb (tag child) "verse" then
    match verse_num child with Ok n => in_range s e n | Err _ => false end
  else true.

(** The top-level nodes before the first chapter node. *)
Fixpoint before_chapter (els : list element) : list element :=
  match els with
  | [] => []
  | el :: rest => if String.eqb (tag el) "chapter" then [] else el :: before_chapter rest
  end.

(** The test of [process_front_matter]'s loop. *)
Definition is_front (el : element) : bool :=
  andb (existsb (String.eqb (tag el)) ["book"; "para"]%string)
       (opt_in (get el "style") front_styles).

(** The tree with every text and tail that is unset or whitespace only
    read as unset. *)
Fixpoint erase_ws (e : element) : element :=
  let 'Elem g a x cs tl := e in
  Elem g a (if blank x then None else x) (map erase_ws cs)
       (if blank tl then None else tl).

(** A decimal numeral read back as an integer. *)
Definition read_int (s : string) : option Z :=
  option_map Z.of_int (NilZero.int_of_string s).

(** The path of the file written for a TOC chunk value. *)
Definition chunk_path (output_dir : string) (chapter_num chunk : yval)
    : result (list string) :=
  ch <- py_int_y chapter_num ;;
  if is_title_chunk chunk then Ok [output_dir; fmt02 ch; "title.usx"]%string
  else n <- py_int_y chunk ;; Ok [output_dir; fmt02 ch; (fmt02 n ++ ".usx")%string].

(** A verse marker whose [number] attribute [int()] rejects. *)
Definition bad_verse (child : element) : Prop :=
  tag child = "verse"%string /\ exists v, get child "number" = Some v /\ py_int v = None.


(** * Properties *)

(** ** Extraction of a chapter *)

Lemma ecc_loop_no_start (target : string) (found : bool) (els : list element) :
  (forall el, In el els -> is_start_of target el = false) ->
  ecc_loop target false found els = ([], found).
Proof.
  revert found; induction els as [|el rest IH]; intros found Hno; [reflexivity|].
  simpl.
  assert (Hel : is_start_of target el = false) by (apply Hno; left; reflexivity).
  unfold is_start_of in Hel.
  destruct (String.eqb (tag el) "chapter") eqn:Ht; simpl in Hel.
  - rewrite Hel, !andb_false_r.
    apply IH; intros x Hx; apply Hno; right; exact Hx.
  - apply IH; intros x Hx; apply Hno; right; exact Hx.
Qed.

(** C7: when no node of the document is a start marker of the requested
    chapter, the Chapter Extractor returns the empty sequence together with
    its warning line, and the Chunk Extractor on the empty sequence returns
    the empty chunk (no exception). *)
Theorem missing_chapter_is_empty (usx_content : list element) (target : string)
  (Hnone : forall el, In el usx_content -> is_start_of target el = false) :
  extract_chapter_content usx_content target =
    ([], [("Warning: Chapter " ++ target ++ " start marker not found")%string]) /\
  (forall start_verse end_verse,
      extract_verses_for_chunk [] start_verse end_verse = Ok []).
Proof.
  split.
  - unfold extract_chapter_content; rewrite ecc_loop_no_start by exact Hnone.
    reflexivity.
  - intros sv ev; reflexivity.
Qed.

(** ** Verse markers without a number *)

Lemma numberless_not_in_range (s e : Z) (c : element) :
  1 <= s -> numberless_verse c = true ->
  (String.eqb (tag c) "verse" = true) /\ (verse_num c = Ok 0) /\ (in_range s e 0 = false).
Proof.
  intros Hs Hc; unfold numberless_verse in Hc.
  apply andb_prop in Hc as [Ht Hn].
  unfold verse_num; destruct (get c "number"); [discriminate|].
  repeat split; [exact Ht|].
  unfold in_range; apply andb_false_intro1, Z.leb_gt; lia.
Qed.

Lemma has_drop_numberless (s e : Z) (cs : list element) :
  1 <= s ->
  has_verses_in_range s e cs =
  has_verses_in_range s e (filter (fun c => negb (numberless_verse c)) cs).
Proof.
  intros Hs; induction cs as [|c rest IH]; [reflexivity|].
  simpl; destruct (numberless_verse c) eqn:Hc; simpl.
  - destruct (numberless_not_in_range s e c Hs Hc) as (Ht & Hv & Hr).
    rewrite Ht, Hv; simpl; rewrite Hr; exact IH.
  - destruct (String.eqb (tag c) "verse"); [|exact IH].
    destruct (verse_num c); simpl; [|reflexivity].
    destruct (in_range s e a); [reflexivity|exact IH].
Qed.

Lemma copy_drop_numberless (s e : Z) (cs : list element) (cur : string) :
  1 <= s ->
  copy_loop s e cur cs =
  copy_loop s e cur (filter (fun c => negb (numberless_verse c)) cs).
Proof.
  intros Hs; revert cur; induction cs as [|c rest IH]; intros cur; [reflexivity|].
  simpl; destruct (numberless_verse c) eqn:Hc; simpl.
  - destruct (numberless_not_in_range s e c Hs Hc) as (Ht & Hv & Hr).
    rewrite Ht, Hv; simpl; rewrite Hr; apply IH.
  - destruct (String.eqb (tag c) "verse").
    + destruct (verse_num c); simpl; [|reflexivity].
      destruct (in_range s e a); [rewrite IH; reflexivity|apply IH].
    + rewrite IH; reflexivity.
Qed.

Lemma copy_loop_sub (s e : Z) (cs : list element) (cur : string) ks t :
  copy_loop s e cur cs = Ok (ks, t) -> forall k, In k ks -> In k cs.
Proof.
  revert cur ks t; induction cs as [|c rest IH]; intros cur ks t H k Hk; simpl in H.
  - inversion H; subst; contradiction.
  - destruct (String.eqb (tag c) "verse").
    + destruct (verse_num c); simpl in H; [|discriminate].
      destruct (in_range s e a).
      * destruct (copy_loop s e (add_tail cur c) rest) as [[ks' t']|] eqn:Hr;
          simpl in H; [|discriminate].
        inversion H; subst; destruct Hk as [<-|Hk]; [left; reflexivity|].
        right; exact (IH _ _ _ Hr k Hk).
      * right; exact (IH _ _ _ H k Hk).
    + destruct (copy_loop s e (add_tail cur c) rest) as [[ks' t']|] eqn:Hr;
        simpl in H; [|discriminate].
      inversion H; subst; destruct Hk as [<-|Hk]; [left; reflexivity|].
      right; exact (IH _ _ _ Hr k Hk).
Qed.

Lemma evfp_children_sub (p c : element) (s e : Z) :
  extract_verses_from_para p s e = Ok (Some c) ->
  forall k, In k (children c) -> In k (children p).
Proof.
  unfold extract_verses_from_para; intros H k Hk.
  destruct (has_verses_in_range s e (children p)) as [b|]; simpl in H; [|discriminate].
  destruct b; simpl in H; [|discriminate].
  destruct (copy_loop s e "" (children p)) as [[ks t]|] eqn:Hc; simpl in H; [|discriminate].
  match type of H with
  | (if ?b then _ else _) = _ => destruct b
  end; inversion H; subst; simpl in Hk.
  exact (copy_loop_sub s e _ _ _ _ Hc k Hk).
Qed.

(** C9: a verse element without a [number] attribute counts as verse 0; for
    a range starting at 1 or above, such markers change neither the
    in-range test of their paragraph nor its copy (the paragraph behaves as
    if they were absent), and they never appear among the copy's children. *)
Theorem numberless_verse_ignored (p : element) (s e : Z) (Hs : 1 <= s) :
  (forall c, numberless_verse c = true -> verse_num c = Ok 0) /\
  has_verses_in_range s e (children p) =
    has_verses_in_range s e (children (drop_numberless p)) /\
  extract_verses_from_para p s e = extract_verses_from_para (drop_numberless p) s e /\
  (forall c, extract_verses_from_para p s e = Ok (Some c) ->
             forall k, In k (children c) -> numberless_verse k = false).
Proof.
  assert (Heq : extract_verses_from_para p s e =
                extract_verses_from_para (drop_numberless p) s e).
  { destruct p as [g a x cs tl]; unfold extract_verses_from_para; simpl.
    rewrite (has_drop_numberless s e cs Hs), (copy_drop_numberless s e cs "" Hs).
    reflexivity. }
  split; [|split; [|split]].
  - intros c Hc; exact (proj1 (proj2 (numberless_not_in_range s 0 c Hs Hc))).
  - destruct p as [g a x cs tl]; exact (has_drop_numberless s e cs Hs).
  - exact Heq.
  - intros c Hc k Hk; rewrite Heq in Hc.
    pose proof (evfp_children_sub _ _ _ _ Hc k Hk) as Hin.
    destruct p as [g a x cs tl]; simpl in Hin.
    apply filter_In in Hin as [_ Hn]; apply negb_true_iff in Hn; exact Hn.
Qed.

Lemma numberless_verse_ignored_witness :
  1 <= 3 /\
  extract_verses_from_para
    (Elem "para" [("style", "p")]%string None
       [Elem "verse" [] None [] (Some "zero"%string);
        Elem "verse" [("number", "3")]%string None [] (Some "three"%string)] None) 3 3 =
  extract_verses_from_para
    (drop_numberless (Elem "para" [("style", "p")]%string None
       [Elem "verse" [] None [] (Some "zero"%string);
        Elem "verse" [("number", "3")]%string None [] (Some "three"%string)] None)) 3 3.
Proof.
  split; [lia|].
  apply (numberless_verse_ignored _ 3 3); lia.
Defined.

Lemma missing_chapter_is_empty_witness :
  (forall el, In el [Elem "chapter" [("number", "2")]%string None [] None] ->
              is_start_of "1" el = false) /\
  extract_chapter_content [Elem "chapter" [("number", "2")]%string None [] None] "1" =
    ([], [("Warning: Chapter " ++ "1" ++ " start marker not found")%string]).
Proof.
  assert (H : forall el, In el [Elem "chapter" [("number", "2")]%string None [] None] ->
              is_start_of "1" el = false).
  { intros el [<-|[]]; reflexivity. }
  split; [exact H|].
  exact (proj1 (missing_chapter_is_empty _ _ H)).
Defined.

(** ** Paragraphs without verses in range *)

Lemma all_parse_tail c cs : all_parse (c :: cs) -> all_parse cs.
Proof. intros H x Hx; apply H; right; exact Hx. Qed.

Lemma has_verses_spec (s e : Z) (cs : list element) :
  all_parse cs ->
  exists b, has_verses_in_range s e cs = Ok b /\ (b = true <-> verse_in s e cs).
Proof.
  induction cs as [|c rest IH]; intros Hp.
  - exists false; split; [reflexivity|].
    split; [discriminate|intros (c & n & [] & _)].
  - destruct (IH (all_parse_tail _ _ Hp)) as [b [Hb Hiff]].
    simpl; destruct (String.eqb (tag c) "verse") eqn:Ht.
    + apply String.eqb_eq in Ht.
      destruct (Hp c (or_introl eq_refl) Ht) as [n Hn]; rewrite Hn; simpl.
      destruct (in_range s e n) eqn:Hr.
      * exists true; split; [reflexivity|split; [|reflexivity]].
        intros _; exists c, n; repeat split; auto; left; reflexivity.
      * exists b; split; [exact Hb|]; rewrite Hiff; split.
        -- intros (c' & n' & Hin & Ht' & Hn' & Hr'); exists c', n'; auto with datatypes.
        -- intros (c' & n' & [<-|Hin] & Ht' & Hn' & Hr').
           ++ rewrite Hn in Hn'; inversion Hn'; subst; congruence.
           ++ exists c', n'; auto.
    + exists b; split; [exact Hb|]; rewrite Hiff; split.
      * intros (c' & n' & Hin & Ht' & Hn' & Hr'); exists c', n'; auto with datatypes.
      * intros (c' & n' & [<-|Hin] & Ht' & Hn' & Hr').
        -- rewrite Ht' in Ht; discriminate.
        -- exists c', n'; auto.
Qed.

Lemma copy_loop_spec (s e : Z) (cs : list element) (cur : string) :
  all_parse cs ->
  exists ks t, copy_loop s e cur cs = Ok (ks, t) /\ (verse_in s e cs -> ks <> []).
Proof.
  revert cur; induction cs as [|c rest IH]; intros cur Hp.
  - exists [], cur; split; [reflexivity|]; intros (c & n & [] & _).
  - simpl; destruct (String.eqb (tag c) "verse") eqn:Ht.
    + apply String.eqb_eq in Ht as Ht'.
      destruct (Hp c (or_introl eq_refl) Ht') as [n Hn]; rewrite Hn; simpl.
      destruct (in_range s e n) eqn:Hr.
      * destruct (IH (add_tail cur c) (all_parse_tail _ _ Hp)) as (ks & t & Hc & _).
        rewrite Hc; simpl; exists (c :: ks), t; split; [reflexivity|discriminate].
      * destruct (IH cur (all_parse_tail _ _ Hp)) as (ks & t & Hc & Hne).
        exists ks, t; split; [exact Hc|].
        intros (c' & n' & [<-|Hin] & Ht'' & Hn' & Hr').
        -- rewrite Hn in Hn'; inversion Hn'; subst; congruence.
        -- apply Hne; exists c', n'; auto.
    + destruct (IH (add_tail cur c) (all_parse_tail _ _ Hp)) as (ks & t & Hc & _).
      rewrite Hc; simpl; exists (c :: ks), t; split; [reflexivity|discriminate].
Qed.

Lemma para_contribution (p : element) (s e : Z) :
  verses_parse p ->
  (~ para_has_in_range s e p /\ extract_verses_from_para p s e = Ok None) \/
  (para_has_in_range s e p /\ exists c, extract_verses_from_para p s e = Ok (Some c)).
Proof.
  intros Hp.
  destruct (has_verses_spec s e (children p) Hp) as [b [Hb Hiff]].
  unfold extract_verses_from_para; rewrite Hb; simpl.
  destruct b; simpl.
  - right; split; [apply Hiff; reflexivity|].
    destruct (copy_loop_spec s e (children p) "" Hp) as (ks & t & Hc & Hne).
    rewrite Hc; simpl.
    destruct ks as [|k ks]; [exfalso; apply Hne; [apply Hiff; reflexivity|reflexivity]|].
    simpl; eexists; reflexivity.
  - left; split; [|reflexivity].
    intros H; apply Hiff in H; discriminate.
Qed.

Lemma evc_loop_contrib (chapter_content : list element) (s e : Z) :
  (forall p, In p chapter_content -> tag p = "para"%string -> verses_parse p) ->
  exists out, evc_loop s e chapter_content = Ok out /\
  exists parts, Forall2 (contributes s e) chapter_content parts /\ out = concat parts.
Proof.
  intros Hparse.
  induction chapter_content as [|el rest IH].
  - exists []; split; [reflexivity|]; exists []; split; [constructor|reflexivity].
  - destruct IH as (out & Hout & parts & Hf & ->).
    { intros p Hp; apply Hparse; right; exact Hp. }
    simpl; destruct (String.eqb (tag el) "para") eqn:Ht.
    + apply String.eqb_eq in Ht.
      destruct (para_contribution el s e (Hparse el (or_introl eq_refl) Ht))
        as [[Hno Hv] | [Hyes [c Hv]]]; rewrite Hv; simpl; rewrite Hout; simpl.
      * exists (concat parts); split; [reflexivity|].
        exists ([] :: parts); split; [constructor; [constructor; assumption|exact Hf]|reflexivity].
      * exists (c :: concat parts); split; [reflexivity|].
        exists ([c] :: parts); split; [|reflexivity].
        constructor; [eapply contrib_para_copy; eassumption|exact Hf].
    + assert (Hn : tag el <> "para"%string) by (intros H; apply String.eqb_eq in H; congruence).
      destruct (is_start_marker el) eqn:Hs.
      * rewrite Hout; simpl.
        exists (el :: concat parts); split; [reflexivity|].
        exists ([el] :: parts); split; [|reflexivity].
        constructor; [apply contrib_start; assumption|exact Hf].
      * exists (concat parts); split; [exact Hout|].
        exists ([] :: parts); split; [|reflexivity].
        constructor; [apply contrib_other; assumption|exact Hf].
Qed.

(** C8: when every verse number of the chapter's paragraphs is an integer
    literal, the Chunk Extractor for [[s, e]] succeeds and its chunk is the
    concatenation, node by node, of each node's contribution: a paragraph
    with no verse marker numbered in [[s, e]] contributes nothing (not even
    an empty copy), a paragraph with one contributes exactly its copy, a
    chapter start marker contributes itself, and any other node nothing. *)
Theorem chunk_drops_paragraphs_out_of_range
  (chapter_content : list element) (s e : Z)
  (Hparse : forall p, In p chapter_content -> tag p = "para"%string -> verses_parse p) :
  exists out, extract_verses_for_chunk chapter_content s (Some e) = Ok out /\
  exists parts, Forall2 (contributes s e) chapter_content parts /\ out = concat parts.
Proof.
  exact (evc_loop_contrib chapter_content s e Hparse).
Qed.

Lemma chunk_drops_paragraphs_out_of_range_witness :
  (forall p, In p [Elem "para" [("style", "p")]%string None
                    [Elem "verse" [("number", "1")]%string None [] (Some "one"%string)] None] ->
             tag p = "para"%string -> verses_parse p) /\
  extract_verses_for_chunk
    [Elem "para" [("style", "p")]%string None
       [Elem "verse" [("number", "1")]%string None [] (Some "one"%string)] None] 3 (Some 3)
  = Ok [].
Proof.
  assert (H : forall p, In p [Elem "para" [("style", "p")]%string None
                    [Elem "verse" [("number", "1")]%string None [] (Some "one"%string)] None] ->
             tag p = "para"%string -> verses_parse p).
  { intros p [<-|[]] _ c [<-|[]] _; exists 1; reflexivity. }
  split; [exact H|].
  destruct (chunk_drops_paragraphs_out_of_range _ 3 3 H) as (out & Hout & _).
  rewrite Hout; f_equal.
  revert Hout; vm_compute; intros Hout; inversion Hout; reflexivity.
Defined.

(** ** Chapter-end markers of the chunk files *)

Lemma indent_shape (l : nat) (e : element) : shape (indent_xml l e) = shape e.
Proof. destruct e as [g a x [|c cs] tl]; reflexivity. Qed.

Lemma fix_last_shape (i : string) (l : list element) :
  map shape (fix_last i l) = map shape l.
Proof.
  induction l as [|c r IH]; [reflexivity|].
  destruct r as [|d r].
  - simpl; destruct (blank (tail c)); [destruct c|]; reflexivity.
  - transitivity (shape c :: map shape (fix_last i (d :: r))); [reflexivity|].
    rewrite IH; reflexivity.
Qed.

Lemma indent_children_eq (l : nat) g a x c cs tl :
  children (indent_xml l (Elem g a x (c :: cs) tl)) =
  fix_last (nl ++ spaces l) (map (indent_xml (S l)) (c :: cs)).
Proof.
  change (fix_last (nl ++ spaces l)
            ((fix go (k : list element) : list element :=
                match k with
                | [] => []
                | c0 :: r => indent_xml (S l) c0 :: go r
                end) (c :: cs)) =
          fix_last (nl ++ spaces l) (map (indent_xml (S l)) (c :: cs))).
  reflexivity.
Qed.

Lemma indent_children_shape (l : nat) (e : element) :
  map shape (children (indent_xml l e)) = map shape (children e).
Proof.
  destruct e as [g a x [|c cs] tl]; [reflexivity|].
  rewrite indent_children_eq, fix_last_shape, map_map.
  simpl children; apply map_ext; intros d; apply indent_shape.
Qed.

Lemma end_markers_shape (l1 l2 : list element) :
  map shape l1 = map shape l2 -> length (end_markers l1) = length (end_markers l2).
Proof.
  revert l2; induction l1 as [|x r IH]; intros [|y r'] H; try discriminate; [reflexivity|].
  simpl in H; unfold shape in H; injection H as Ht Ha Hr.
  unfold end_markers, get in *; simpl; rewrite Ht, Ha.
  destruct (_ && _); simpl; rewrite (IH r' Hr); reflexivity.
Qed.

Lemma create_chunk_file_shape (out : string) (ch n : Z) (content : list element) :
  map shape (children (froot (create_chunk_file out ch n content false))) =
  map shape (book_info :: content ++
             (if existsb is_chapter_end content then [] else [chapter_end ch])).
Proof.
  unfold create_chunk_file; cbn [froot].
  rewrite indent_children_shape; reflexivity.
Qed.

Lemma evfp_tag (p c : element) (s e : Z) :
  extract_verses_from_para p s e = Ok (Some c) -> tag c = tag p.
Proof.
  unfold extract_verses_from_para; intros H.
  destruct (has_verses_in_range s e (children p)) as [b|]; simpl in H; [|discriminate].
  destruct b; simpl in H; [|discriminate].
  destruct (copy_loop s e "" (children p)) as [[ks t]|]; simpl in H; [|discriminate].
  match type of H with
  | (if ?b then _ else _) = _ => destruct b
  end; inversion H; reflexivity.
Qed.

Lemma evc_no_end (s e : Z) (cs out : list element) :
  evc_loop s e cs = Ok out ->
  forall x, In x out -> String.eqb (tag x) "chapter" = true -> get x "eid" = None.
Proof.
  revert out; induction cs as [|el rest IH]; intros out H x Hx Hc; simpl in H.
  - inversion H; subst; contradiction.
  - destruct (String.eqb (tag el) "para") eqn:Ht.
    + destruct (extract_verses_from_para el s e) as [v|] eqn:Hv; simpl in H; [|discriminate].
      destruct (evc_loop s e rest) as [r|] eqn:Hr; simpl in H; [|discriminate].
      destruct v as [c|]; inversion H; subst.
      * destruct Hx as [<-|Hx]; [|exact (IH _ eq_refl x Hx Hc)].
        apply String.eqb_eq in Ht.
        rewrite (evfp_tag _ _ _ _ Hv), Ht in Hc; discriminate.
      * exact (IH _ eq_refl x Hx Hc).
    + destruct (is_start_marker el) eqn:Hs.
      * destruct (evc_loop s e rest) as [r|] eqn:Hr; simpl in H; [|discriminate].
        inversion H; subst; destruct Hx as [<-|Hx]; [|exact (IH _ eq_refl x Hx Hc)].
        unfold is_start_marker in Hs; apply andb_prop in Hs as [_ Hn].
        destruct (get el "eid"); [discriminate|reflexivity].
      * exact (IH _ H x Hx Hc).
Qed.

Lemma no_end_markers (l : list element) :
  (forall x, In x l -> String.eqb (tag x) "chapter" = true -> get x "eid" = None) ->
  existsb is_chapter_end l = false /\ end_markers l = [].
Proof.
  induction l as [|x r IH]; intros H; [split; reflexivity|].
  destruct IH as [IH1 IH2]; [intros y Hy; apply H; right; exact Hy|].
  unfold end_markers, is_chapter_end in *; simpl; rewrite IH1, IH2.
  destruct (String.eqb (tag x) "chapter") eqn:Ht; [|split; reflexivity].
  rewrite (H x (or_introl eq_refl) Ht); split; reflexivity.
Qed.

Lemma chunk_loop_files (out : string) (ch : yval) (content : list element)
    (cs : list yval) fs ex :
  chunk_loop out ch content cs = (fs, ex) ->
  forall f, In f fs -> exists c, In c cs /\ chunk_file out ch content c = Ok f.
Proof.
  revert fs; induction cs as [|c rest IH]; intros fs H f Hf; simpl in H.
  - inversion H; subst; contradiction.
  - destruct (chunk_file out ch content c) as [f0|] eqn:Hc; [|inversion H; subst; contradiction].
    destruct (chunk_loop out ch content rest) as [fs' ex'] eqn:Hr.
    inversion H; subst; destruct Hf as [<-|Hf].
    + exists c; split; [left; reflexivity|exact Hc].
    + destruct (IH _ eq_refl f Hf) as (c' & Hin & Hc'); exists c'; split; [right|]; assumption.
Qed.

(** C4: a non-title chunk file holds the book node, the chunk's nodes, and a
    synthesized end marker exactly when no chunk node is a chapter node with
    an [eid]; and every non-title file that [process_chapter] writes has
    exactly one top-level chapter node carrying an [eid] (the chunk's own
    nodes never carry one, so the synthesized marker is always the one). *)
Theorem non_title_file_one_end_marker :
  (forall out ch n content,
     map shape (children (froot (create_chunk_file out ch n content false))) =
     map shape (book_info :: content ++
                (if existsb is_chapter_end content then [] else [chapter_end ch]))) /\
  (forall usx_content out info files warns ex,
     process_chapter usx_content out info = (files, warns, ex) ->
     forall f, In f files -> file_name f <> "title.usx"%string ->
     length (end_markers (children (froot f))) = 1%nat).
Proof.
  split; [exact create_chunk_file_shape|].
  intros usx out info files warns ex Hp f Hf Hn.
  unfold process_chapter in Hp.
  destruct (extract_chapter_content usx (py_str (chapter info))) as [content warn].
  destruct content as [|el rest]; [inversion Hp; subst; contradiction|].
  destruct (chunk_loop out (chapter info) (el :: rest) (chunks info)) as [fs ex'] eqn:Hl.
  inversion Hp; subst.
  destruct (chunk_loop_files _ _ _ _ _ _ Hl f Hf) as (c & _ & Hc).
  unfold chunk_file in Hc; destruct (is_title_chunk c).
  - destruct (py_int_y (chapter info)); simpl in Hc; inversion Hc; subst.
    exfalso; apply Hn; reflexivity.
  - destruct (py_int_y c) as [n|]; simpl in Hc; [|discriminate].
    destruct (extract_verses_for_chunk (el :: rest) n None) as [cc|] eqn:Hv;
      simpl in Hc; [|discriminate].
    destruct (py_int_y (chapter info)) as [ch|]; simpl in Hc; inversion Hc; subst.
    destruct (no_end_markers cc (evc_no_end n n _ cc Hv)) as [Hex Hnil].
    rewrite (end_markers_shape _ _ (create_chunk_file_shape out ch n cc)), Hex.
    unfold end_markers; simpl; rewrite filter_app.
    fold (end_markers cc); rewrite Hnil; reflexivity.
Qed.

Lemma non_title_file_one_end_marker_witness :
  exists files warns ex,
    process_chapter sample_chapter "out" (mkEntry (YInt 1) [YStr "title"; YInt 2]) =
      (files, warns, ex) /\
    Forall (fun f => file_name f <> "title.usx"%string ->
                     length (end_markers (children (froot f))) = 1%nat) files.
Proof.
  destruct (process_chapter sample_chapter "out" (mkEntry (YInt 1) [YStr "title"; YInt 2]))
    as [[files warns] ex] eqn:Hp.
  exists files, warns, ex; split; [reflexivity|].
  apply Forall_forall; intros f Hf.
  exact (proj2 non_title_file_one_end_marker _ _ _ _ _ _ Hp f Hf).
Defined.

(** ** Chunks that match no paragraph *)

Lemma chunk_loop_all_ok (out : string) (ch : yval) (content : list element)
    (cs : list yval) :
  (forall c, In c cs -> exists f, chunk_file out ch content c = Ok f) ->
  exists fs, chunk_loop out ch content cs = (fs, None) /\
  forall c f, In c cs -> chunk_file out ch content c = Ok f -> In f fs.
Proof.
  induction cs as [|c rest IH]; intros H.
  - exists []; split; [reflexivity|intros c f []].
  - destruct (H c (or_introl eq_refl)) as [f0 Hf0].
    destruct IH as (fs & Hl & Hin); [intros c' Hc'; apply H; right; exact Hc'|].
    exists (f0 :: fs); split.
    + simpl; rewrite Hf0, Hl; reflexivity.
    + intros c' f [<-|Hc'] Hf; [rewrite Hf0 in Hf; inversion Hf; left; reflexivity|].
      right; exact (Hin c' f Hc' Hf).
Qed.

Lemma concat_no_range (n : Z) (content : list element) (parts : list (list element)) :
  Forall2 (contributes n n) content parts ->
  (forall p, In p content -> tag p = "para"%string -> ~ para_has_in_range n n p) ->
  concat parts = filter is_start_marker content.
Proof.
  induction 1 as [|el part content' parts' Hc Hf IH]; intros Hno; [reflexivity|].
  simpl; rewrite IH by (intros p Hp; apply Hno; right; exact Hp).
  destruct Hc as [p Ht Hr|p c Ht Hr Hv|el' Ht Hs|el' Ht Hs].
  - unfold is_start_marker; rewrite Ht; reflexivity.
  - exfalso; exact (Hno p (or_introl eq_refl) Ht Hr).
  - rewrite Hs; reflexivity.
  - rewrite Hs; reflexivity.
Qed.

(** C10: for a chapter whose TOC value is an integer [z] and whose extracted
    content is non-empty, when the chapter's verse numbers and the TOC's
    chunk values are integers, [process_chapter] raises nothing, and every
    verse chunk [n] that no paragraph of the chapter matches is still
    written to [<out>/<z:02d>/<n:02d>.usx], holding the book node, the
    chapter start markers of the chapter content, and a synthesized chapter
    end marker, in that order. *)
Theorem unmatched_chunk_still_written (usx_content : list element) (out : string)
  (info : toc_entry) (z : Z) (content : list element) (warn : list string)
  (Hch : py_int_y (chapter info) = Ok z)
  (Hcc : extract_chapter_content usx_content (py_str (chapter info)) = (content, warn))
  (Hne : content <> [])
  (Hparse : forall p, In p content -> tag p = "para"%string -> verses_parse p)
  (Hchunks : forall c, In c (chunks info) ->
             is_title_chunk c = true \/ exists n, py_int_y c = Ok n) :
  exists files, process_chapter usx_content out info = (files, warn, None) /\
  forall c n, In c (chunks info) -> is_title_chunk c = false -> py_int_y c = Ok n ->
    (forall p, In p content -> tag p = "para"%string -> ~ para_has_in_range n n p) ->
    exists f, In f files /\
      fpath f = [out; fmt02 z; (fmt02 n ++ ".usx")%string] /\
      map shape (children (froot f)) =
        map shape (book_info :: filter is_start_marker content ++ [chapter_end z]).
Proof.
  destruct (chunk_loop_all_ok out (chapter info) content (chunks info)) as (fs & Hl & Hin).
  { intros c Hc; unfold chunk_file.
    destruct (Hchunks c Hc) as [Ht|[n Hn]].
    - rewrite Ht, Hch; eexists; reflexivity.
    - destruct (is_title_chunk c); [rewrite Hch; eexists; reflexivity|].
      rewrite Hn; simpl.
      destruct (evc_loop_contrib content n n Hparse) as (o & Ho & _).
      unfold extract_verses_for_chunk; rewrite Ho; simpl; rewrite Hch.
      eexists; reflexivity. }
  exists fs; split.
  { unfold process_chapter; rewrite Hcc.
    destruct content as [|el rest]; [congruence|]; rewrite Hl; reflexivity. }
  intros c n Hc Ht Hn Hno.
  destruct (evc_loop_contrib content n n Hparse) as (o & Ho & parts & Hf & ->).
  exists (create_chunk_file out z n (concat parts) false); split.
  - apply (Hin c); [exact Hc|].
    unfold chunk_file; rewrite Ht, Hn; simpl.
    unfold extract_verses_for_chunk; rewrite Ho; simpl; rewrite Hch; reflexivity.
  - split; [reflexivity|].
    rewrite create_chunk_file_shape.
    destruct (no_end_markers _ (evc_no_end n n content _ Ho)) as [Hex _].
    rewrite Hex, (concat_no_range n content parts Hf Hno); reflexivity.
Qed.

Lemma unmatched_chunk_still_written_witness :
  exists files,
    process_chapter sample_chapter "out" (mkEntry (YInt 1) [YInt 9]) = (files, [], None) /\
    exists f, In f files /\ fpath f = ["out"; "01"; "09.usx"]%string /\
      map shape (children (froot f)) =
        map shape (book_info :: filter is_start_marker sample_chapter ++ [chapter_end 1]).
Proof.
  assert (Hparse : forall p, In p sample_chapter -> tag p = "para"%string -> verses_parse p).
  { intros p [<-|[<-|[]]] Ht; [discriminate|].
    intros c [<-|[<-|[]]] _; [exists 1|exists 2]; reflexivity. }
  destruct (unmatched_chunk_still_written sample_chapter "out" (mkEntry (YInt 1) [YInt 9])
              1 sample_chapter [] eq_refl ltac:(vm_compute; reflexivity)
              ltac:(discriminate) Hparse
              ltac:(intros c [<-|[]]; right; exists 9; reflexivity))
    as (files & Hp & Hf).
  exists files; split; [exact Hp|].
  apply (Hf (YInt 9) 9); [left; reflexivity|reflexivity|reflexivity|].
  intros p [<-|[<-|[]]] Ht; [discriminate|].
  intros (c & n & [<-|[<-|[]]] & _ & Hn & Hr); vm_compute in Hn; inversion Hn; subst;
    vm_compute in Hr; discriminate.
Defined.

(** ** Code evaluated at concrete inputs *)

(** C1: the explicit end marker of USX 3, a chapter node with an [eid] and
    no [number], is not part of the span the Chapter Extractor returns: the
    node fails [element.get('number') == str(chapter_num)], so the second
    branch stops the scan before the end-marker branch is reached. *)
Theorem chapter_span_omits_end_marker :
  extract_chapter_content ended_chapter_doc "1" =
    ([Elem "chapter" [("number", "1"); ("style", "c"); ("sid", "REV 1")]%string None [] None;
      Elem "para" [("style", "p")]%string None [verse_marker "1" "one"] None], []) /\
  ~ In (Elem "chapter" [("eid", "REV 1")]%string None [] None)
       (fst (extract_chapter_content ended_chapter_doc "1")).
Proof.
  split; [vm_compute; reflexivity|].
  vm_compute; intros [H|[H|[]]]; discriminate.
Qed.

(** C2 (counterexample): for verse 3 of [five_verse_para], the copy's
    leading text holds the paragraph's leading text ["Lead "]. *)
Lemma verse3_copy_keeps_leading_text :
  exists c, extract_verses_from_para five_verse_para 3 3 = Ok (Some c) /\
            text c = Some ("Lead " ++ "three ")%string.
Proof. eexists; split; vm_compute; reflexivity. Qed.

Lemma has_cons_verse (s e : Z) (c : element) (r : list element) (n : Z) :
  String.eqb (tag c) "verse" = true -> verse_num c = Ok n ->
  has_verses_in_range s e (c :: r) =
  if in_range s e n then Ok true else has_verses_in_range s e r.
Proof. intros Ht Hn; simpl; rewrite Ht, Hn; reflexivity. Qed.

Lemma copy_skip_verse (s e : Z) (c : element) (r : list element) (cur : string) (n : Z) :
  String.eqb (tag c) "verse" = true -> verse_num c = Ok n -> in_range s e n = false ->
  copy_loop s e cur (c :: r) = copy_loop s e cur r.
Proof. intros Ht Hn Hr; simpl; rewrite Ht, Hn; simpl; rewrite Hr; reflexivity. Qed.

Lemma copy_take_verse (s e : Z) (c : element) (r : list element) (cur : string) (n : Z) :
  String.eqb (tag c) "verse" = true -> verse_num c = Ok n -> in_range s e n = true ->
  copy_loop s e cur (c :: r) =
  (x <- copy_loop s e (add_tail cur c) r ;; Ok (c :: fst x, snd x)).
Proof. intros Ht Hn Hr; simpl; rewrite Ht, Hn; simpl; rewrite Hr; reflexivity. Qed.

(** C2 (as amended): for a paragraph whose children are the verse markers
    numbered 1 to 5, the range [[3, 3]] yields a copy with the paragraph's
    tag and attributes whose only child is verse 3's marker (with its
    trailing text); the text of the other verses is left out, and the
    copy's leading text is the paragraph's own leading text followed by
    verse 3's trailing text (unset when that is blank). *)
Theorem verse3_copy_shape (a : attrs) (lead tl : option string)
  (v1 v2 v3 v4 v5 : element)
  (Hv : forall v, In v [v1; v2; v3; v4; v5] -> tag v = "verse"%string)
  (H1 : get v1 "number" = Some "1"%string) (H2 : get v2 "number" = Some "2"%string)
  (H3 : get v3 "number" = Some "3"%string) (H4 : get v4 "number" = Some "4"%string)
  (H5 : get v5 "number" = Some "5"%string) :
  extract_verses_from_para (Elem "para" a lead [v1; v2; v3; v4; v5] tl) 3 3 =
  Ok (Some (Elem "para" a
              (let cur := (opt_text lead ++ add_tail "" v3)%string in
               if strip_nonempty cur then Some cur else None)
              [v3] None)).
Proof.
  assert (T : forall v, In v [v1; v2; v3; v4; v5] -> String.eqb (tag v) "verse" = true)
    by (intros v Hin; rewrite (Hv v Hin); reflexivity).
  assert (E1 : verse_num v1 = Ok 1) by (unfold verse_num; rewrite H1; reflexivity).
  assert (E2 : verse_num v2 = Ok 2) by (unfold verse_num; rewrite H2; reflexivity).
  assert (E3 : verse_num v3 = Ok 3) by (unfold verse_num; rewrite H3; reflexivity).
  assert (E4 : verse_num v4 = Ok 4) by (unfold verse_num; rewrite H4; reflexivity).
  assert (E5 : verse_num v5 = Ok 5) by (unfold verse_num; rewrite H5; reflexivity).
  unfold extract_verses_from_para; simpl children.
  rewrite (has_cons_verse 3 3 v1 _ 1), (has_cons_verse 3 3 v2 _ 2),
          (has_cons_verse 3 3 v3 _ 3) by first [apply T; simpl; tauto | assumption].
  rewrite (copy_skip_verse 3 3 v1 _ _ 1), (copy_skip_verse 3 3 v2 _ _ 2),
          (copy_take_verse 3 3 v3 _ _ 3), (copy_skip_verse 3 3 v4 _ _ 4),
          (copy_skip_verse 3 3 v5 _ _ 5)
    by first [apply T; simpl; tauto | assumption | reflexivity].
  simpl.
  destruct lead as [t|]; simpl.
  - destruct (String.eqb t "") eqn:Ht; simpl.
    + apply String.eqb_eq in Ht; subst t; simpl.
      destruct (strip_nonempty (add_tail "" v3)); reflexivity.
    + destruct (strip_nonempty (t ++ add_tail "" v3)); reflexivity.
  - destruct (strip_nonempty (add_tail "" v3)); reflexivity.
Qed.

Lemma verse3_copy_shape_witness :
  extract_verses_from_para five_verse_para 3 3 =
  Ok (Some (Elem "para" [("style", "p")]%string
              (let cur := (opt_text (Some "Lead "%string) ++
                           add_tail "" (verse_marker "3" "three "))%string in
               if strip_nonempty cur then Some cur else None)
              [verse_marker "3" "three "] None)).
Proof.
  apply verse3_copy_shape;
    [intros v Hv; simpl in Hv; intuition (subst; reflexivity)
    |reflexivity|reflexivity|reflexivity|reflexivity|reflexivity].
Defined.

(** C5: the front-matter filter keeps a node only when its [style] is one of
    [h], [toc1]-[toc3], [mt1]-[mt3]; a book node has style [id], so
    [front/title.usx] holds the heading paragraphs and not the book node. *)
Theorem front_matter_omits_book :
  exists f, process_front_matter front_doc "out" = [f] /\
    fpath f = ["out"; "front"; "title.usx"]%string /\
    map shape (children (froot f)) =
      [("para", [("style", "h")]); ("para", [("style", "mt1")])]%string.
Proof. eexists; split; [reflexivity|]; split; vm_compute; reflexivity. Qed.

(** C6: [cli.main] parses [--book-code] but builds the splitter from the
    three paths only; with [--book-code GEN] the chunk file's book node still
    carries [code="REV"] and the synthesized end marker [eid="REV 1"]. *)
Theorem book_code_option_ignored :
  exists f,
    cli_main gen_args true true [mkEntry (YInt 1) [YInt 1]] sample_chapter = (0, [f]) /\
    book_code gen_args = "GEN"%string /\
    map (fun el => get el "code") (filter (fun el => String.eqb (tag el) "book")
                                           (children (froot f))) = [Some "REV"%string] /\
    map (fun el => get el "eid") (end_markers (children (froot f))) =
      [Some "REV 1"%string].
Proof. eexists; split; [reflexivity|]; split; [reflexivity|]; split; vm_compute; reflexivity. Qed.


(** ** Sharing between the source tree and the chunk files *)

Lemma strip_nonempty_app (a b : string) :
  strip_nonempty (a ++ b) = strip_nonempty a || strip_nonempty b.
Proof.
  induction a as [|c a IH]; [reflexivity|].
  unfold strip_nonempty in *; simpl; rewrite IH, orb_assoc; reflexivity.
Qed.

Lemma spaces_blank (l : nat) : strip_nonempty (spaces l) = false.
Proof.
  induction l as [|l IH]; [reflexivity|].
  change (spaces (S l)) with ("  " ++ spaces l)%string.
  rewrite strip_nonempty_app, IH; reflexivity.
Qed.

Lemma indent_blank (l : nat) : blank (Some (nl ++ spaces l)%string) = true.
Proof. unfold blank; rewrite strip_nonempty_app, spaces_blank; reflexivity. Qed.

Lemma indent_text_blank (l : nat) : blank (Some ((nl ++ spaces l) ++ "  ")%string) = true.
Proof. unfold blank; rewrite !strip_nonempty_app, spaces_blank; reflexivity. Qed.

Module StoreFacts.
Import Store.
Local Open Scope nat_scope.





















End StoreFacts.

(** * Further properties of the splitter *)

(** ** The span of a chapter *)

Lemma opt_eqb_some (o : option string) (t : string) : opt_eqb o t = true -> o = Some t.
Proof. destruct o; simpl; [intros H; apply String.eqb_eq in H; subst; reflexivity|discriminate]. Qed.

Lemma ecc_fst (u : list element) (t : string) :
  fst (extract_chapter_content u t) = fst (ecc_loop t false false u).
Proof. unfold extract_chapter_content; destruct (ecc_loop t false false u); reflexivity. Qed.

Lemma ecc_snd (u : list element) (t : string) :
  snd (extract_chapter_content u t) =
  if snd (ecc_loop t false false u) then []
  else [("Warning: Chapter " ++ t ++ " start marker not found")%string].
Proof. unfold extract_chapter_content; destruct (ecc_loop t false false u); reflexivity. Qed.

Lemma ecc_found (t : string) (els : list element) :
  forall b, snd (ecc_loop t b true els) = true.
Proof.
  induction els as [|el rest IH]; intros b; [reflexivity|]; simpl.
  destruct (String.eqb (tag el) "chapter").
  - destruct (_ && _).
    + destruct (ecc_loop t true true rest) as [r f] eqn:E; simpl.
      rewrite <- (IH true), E; reflexivity.
    + destruct (_ && _); [reflexivity|].
      destruct (_ && _); [reflexivity|apply IH].
  - destruct b.
    + destruct (ecc_loop t true true rest) as [r f] eqn:E; simpl.
      rewrite <- (IH true), E; reflexivity.
    + apply IH.
Qed.

Lemma ecc_true_spec (t : string) (els : list element) : forall f,
  (exists post, els = fst (ecc_loop t true f els) ++ post) /\
  (forall x, In x (fst (ecc_loop t true f els)) ->
             tag x = "chapter"%string -> get x "number" = Some t) /\
  (forall pre x post, fst (ecc_loop t true f els) = pre ++ x :: post ->
     tag x = "chapter"%string -> get x "eid" <> None -> post = []).
Proof.
  induction els as [|el rest IH]; intros f; simpl.
  - split; [exists []; reflexivity|split; [intros x []|]].
    intros pre x post H; destruct pre; discriminate.
  - destruct (String.eqb (tag el) "chapter") eqn:Ht.
    + destruct (opt_eqb (get el "number") t) eqn:Hn;
        [pose proof (opt_eqb_some _ _ Hn) as Hn'|];
        destruct (get el "eid") eqn:He; simpl.
      * split; [exists rest; reflexivity|split].
        -- intros x [<-|[]] _; exact Hn'.
        -- intros [|y pre] x post H _ _; [injection H as _ H; exact (eq_sym H)|].
           destruct pre; discriminate.
      * destruct (IH true) as ((post & Hp) & Hnum & Hend).
        destruct (ecc_loop t true true rest) as [r f'] eqn:E; simpl in *.
        split; [exists post; rewrite Hp at 1; reflexivity|split].
        -- intros x [<-|Hx] Hx'; [exact Hn'|exact (Hnum x Hx Hx')].
        -- intros [|y pre] x post' H Hc Hx.
           ++ injection H as <- _; contradiction.
           ++ injection H as _ H; exact (Hend pre x post' H Hc Hx).
      * split; [exists (el :: rest); reflexivity|split; [intros x []|]].
        intros pre x post H; destruct pre; discriminate.
      * split; [exists (el :: rest); reflexivity|split; [intros x []|]].
        intros pre x post H; destruct pre; discriminate.
    + destruct (IH f) as ((post & Hp) & Hnum & Hend).
      destruct (ecc_loop t true f rest) as [r f'] eqn:E; simpl in *.
      split; [exists post; rewrite Hp at 1; reflexivity|split].
      * intros x [<-|Hx] Hx'; [rewrite Hx', String.eqb_refl in Ht; discriminate|].
        exact (Hnum x Hx Hx').
      * intros [|y pre] x post' H Hc Hx.
        -- injection H as <- _; rewrite Hc, String.eqb_refl in Ht; discriminate.
        -- injection H as _ H; exact (Hend pre x post' H Hc Hx).
Qed.

Lemma ecc_false_spec (t : string) (els : list element) : forall f,
  (fst (ecc_loop t false f els) = [] /\ snd (ecc_loop t false f els) = f /\
   forall y, In y els -> is_start_of t y = false) \/
  (exists pre x rest, els = pre ++ x :: rest /\
     (forall y, In y pre -> is_start_of t y = false) /\ is_start_of t x = true /\
     ecc_loop t false f els =
       (x :: fst (ecc_loop t true true rest), snd (ecc_loop t true true rest))).
Proof.
  induction els as [|el rest IH]; intros f; simpl.
  - left; split; [reflexivity|split; [reflexivity|intros y []]].
  - assert (Hnext : (fst (ecc_loop t false f rest) = [] /\ snd (ecc_loop t false f rest) = f /\
                     forall y, In y rest -> is_start_of t y = false) \/
                    (exists pre x rest', rest = pre ++ x :: rest' /\
                       (forall y, In y pre -> is_start_of t y = false) /\
                       is_start_of t x = true /\
                       ecc_loop t false f rest =
                         (x :: fst (ecc_loop t true true rest'),
                          snd (ecc_loop t true true rest'))) ->
                    is_start_of t el = false ->
                    (fst (ecc_loop t false f rest) = [] /\ snd (ecc_loop t false f rest) = f /\
                     forall y, In y (el :: rest) -> is_start_of t y = false) \/
                    (exists pre x rest', el :: rest = pre ++ x :: rest' /\
                       (forall y, In y pre -> is_start_of t y = false) /\
                       is_start_of t x = true /\
                       ecc_loop t false f rest =
                         (x :: fst (ecc_loop t true true rest'),
                          snd (ecc_loop t true true rest')))).
    { intros [(H1 & H2 & H3)|(pre & x & rest' & H1 & H2 & H3 & H4)] Hel.
      - left; split; [exact H1|split; [exact H2|]].
        intros y [<-|Hy]; [exact Hel|exact (H3 y Hy)].
      - right; exists (el :: pre), x, rest'; split; [rewrite H1; reflexivity|].
        split; [intros y [<-|Hy]; [exact Hel|exact (H2 y Hy)]|split; [exact H3|exact H4]]. }
    unfold is_start_of in Hnext.
    destruct (String.eqb (tag el) "chapter") eqn:Ht.
    + destruct (opt_eqb (get el "number") t && is_none (get el "eid")) eqn:Hs.
      * right; exists [], el, rest; split; [reflexivity|split; [intros y []|]].
        split; [unfold is_start_of; rewrite Ht, Hs; reflexivity|].
        destruct (ecc_loop t true true rest); reflexivity.
      * rewrite !andb_false_r; apply Hnext; [apply IH|reflexivity].
    + apply Hnext; [apply IH|reflexivity].
Qed.

(** X1: The span the Chapter Extractor returns is a contiguous run of the
    document's top-level nodes; when it is not empty, it starts at the
    first start marker of the chapter (no node before it is one). *)
Theorem chapter_content_is_span (usx_content : list element) (target : string) :
  exists pre post,
    usx_content = pre ++ fst (extract_chapter_content usx_content target) ++ post /\
    (forall y, In y pre -> is_start_of target y = false) /\
    match fst (extract_chapter_content usx_content target) with
    | [] => True
    | x :: _ => is_start_of target x = true
    end.
Proof.
  rewrite ecc_fst.
  destruct (ecc_false_spec target usx_content false) as [(H1 & _ & H3)|(pre & x & rest & H1 & H2 & H3 & H4)].
  - rewrite H1; exists usx_content, []; split; [rewrite app_nil_r; reflexivity|].
    split; [exact H3|exact I].
  - rewrite H4; simpl.
    destruct (ecc_true_spec target rest true) as ((post & Hp) & _ & _).
    exists pre, post; split; [rewrite H1, Hp at 1; reflexivity|split; [exact H2|exact H3]].
Qed.

(** X2: Every chapter node of the span carries the requested number (no node of
    another chapter is ever collected), and a chapter node with an end id
    can only be the span's last node. *)
Theorem chapter_content_chapter_nodes (usx_content : list element) (target : string) :
  (forall x, In x (fst (extract_chapter_content usx_content target)) ->
     tag x = "chapter"%string -> get x "number" = Some target) /\
  (forall pre x post, fst (extract_chapter_content usx_content target) = pre ++ x :: post ->
     tag x = "chapter"%string -> get x "eid" <> None -> post = []).
Proof.
  rewrite ecc_fst.
  destruct (ecc_false_spec target usx_content false) as [(H1 & _ & _)|(pre & x & rest & _ & _ & H3 & H4)].
  - rewrite H1; split; [intros x []|intros pre x post H; destruct pre; discriminate].
  - rewrite H4; simpl.
    destruct (ecc_true_spec target rest true) as (_ & Hnum & Hend).
    unfold is_start_of in H3; apply andb_prop in H3 as [_ H3]; apply andb_prop in H3 as [Hn He].
    split.
    + intros y [<-|Hy] Hc; [exact (opt_eqb_some _ _ Hn)|exact (Hnum y Hy Hc)].
    + intros [|y pre'] z post H Hc Hz.
      * injection H as <- _; destruct (get x "eid"); [discriminate|contradiction].
      * injection H as _ H; exact (Hend pre' z post H Hc Hz).
Qed.

(** X3: When the document holds a start marker of the requested chapter, the
    Chapter Extractor prints no warning and returns a non-empty span. *)
Theorem chapter_found_no_warning (usx_content : list element) (target : string)
  (Hstart : exists x, In x usx_content /\ is_start_of target x = true) :
  snd (extract_chapter_content usx_content target) = [] /\
  fst (extract_chapter_content usx_content target) <> [].
Proof.
  rewrite ecc_snd, ecc_fst.
  destruct (ecc_false_spec target usx_content false) as [(_ & _ & H3)|(pre & x & rest & _ & _ & _ & H4)].
  - destruct Hstart as (x & Hx & Hs); rewrite (H3 x Hx) in Hs; discriminate.
  - rewrite H4; simpl; rewrite ecc_found; split; [reflexivity|discriminate].
Qed.

Lemma chapter_found_no_warning_witness :
  (exists x, In x sample_chapter /\ is_start_of "1" x = true) /\
  snd (extract_chapter_content sample_chapter "1") = [] /\
  fst (extract_chapter_content sample_chapter "1") <> [].
Proof.
  assert (H : exists x, In x sample_chapter /\ is_start_of "1" x = true).
  { eexists; split; [left; reflexivity|reflexivity]. }
  split; [exact H|exact (chapter_found_no_warning sample_chapter "1" H)].
Defined.

(** ** The paragraph copy *)

Lemma copy_loop_kept (s e : Z) (cs : list element) : forall cur ks t,
  copy_loop s e cur cs = Ok (ks, t) -> ks = filter (kept_child s e) cs.
Proof.
  induction cs as [|c rest IH]; intros cur ks t H; simpl in H.
  - inversion H; reflexivity.
  - simpl; unfold kept_child at 1.
    destruct (String.eqb (tag c) "verse").
    + destruct (verse_num c) as [n|]; simpl in H; [|discriminate].
      destruct (in_range s e n).
      * destruct (copy_loop s e _ rest) as [[ks' t']|] eqn:Hr; simpl in H; [|discriminate].
        inversion H; subst; rewrite (IH _ _ _ Hr); reflexivity.
      * exact (IH _ _ _ H).
    + destruct (copy_loop s e _ rest) as [[ks' t']|] eqn:Hr; simpl in H; [|discriminate].
      inversion H; subst; rewrite (IH _ _ _ Hr); reflexivity.
Qed.

(** X4: The paragraph copy has the paragraph's tag and attributes and no tail,
    and its children are the paragraph's own children minus the verse
    markers numbered outside [[s, e]], in order: every non-verse child
    (a note, a character span) is kept whatever verse it belongs to. *)
Theorem para_copy_children (p c : element) (s e : Z) :
  extract_verses_from_para p s e = Ok (Some c) ->
  tag c = tag p /\ attrib c = attrib p /\ tail c = None /\
  children c = filter (kept_child s e) (children p).
Proof.
  unfold extract_verses_from_para; intros H.
  destruct (has_verses_in_range s e (children p)) as [b|]; simpl in H; [|discriminate].
  destruct b; simpl in H; [|discriminate].
  destruct (copy_loop s e "" (children p)) as [[ks t]|] eqn:Hc; simpl in H; [|discriminate].
  match type of H with
  | (if ?b then _ else _) = _ => destruct b
  end; inversion H; subst; clear H.
  repeat split; exact (copy_loop_kept _ _ _ _ _ _ Hc).
Qed.

Lemma para_copy_children_witness :
  extract_verses_from_para
    (Elem "para" [("style", "p")]%string None
       [verse_marker "1" "one"; Elem "note" [("caller", "+")]%string None [] None;
        verse_marker "2" "two"] None) 2 2 =
    Ok (Some (Elem "para" [("style", "p")]%string (Some "two"%string)
                [Elem "note" [("caller", "+")]%string None [] None; verse_marker "2" "two"]
                None)) /\
  (let c := Elem "para" [("style", "p")]%string (Some "two"%string)
              [Elem "note" [("caller", "+")]%string None [] None; verse_marker "2" "two"] None in
   tag c = "para"%string /\ attrib c = [("style", "p")]%string /\ tail c = None /\
   children c = filter (kept_child 2 2)
                  [verse_marker "1" "one"; Elem "note" [("caller", "+")]%string None [] None;
                   verse_marker "2" "two"]).
Proof.
  assert (H : extract_verses_from_para
    (Elem "para" [("style", "p")]%string None
       [verse_marker "1" "one"; Elem "note" [("caller", "+")]%string None [] None;
        verse_marker "2" "two"] None) 2 2 =
    Ok (Some (Elem "para" [("style", "p")]%string (Some "two"%string)
                [Elem "note" [("caller", "+")]%string None [] None; verse_marker "2" "two"]
                None))) by (vm_compute; reflexivity).
  split; [exact H|exact (para_copy_children _ _ 2 2 H)].
Defined.

Lemma bad_verse_num (c : element) : bad_verse c ->
  String.eqb (tag c) "verse" = true /\ verse_num c = Err ValueError.
Proof.
  intros [Ht (v & Hv & Hp)]; rewrite Ht; split; [reflexivity|].
  unfold verse_num; rewrite Hv, Hp; reflexivity.
Qed.

Lemma copy_loop_bad (s e : Z) (cs : list element) :
  (exists c, In c cs /\ bad_verse c) -> forall cur, copy_loop s e cur cs = Err ValueError.
Proof.
  induction cs as [|c rest IH]; intros (b & Hb & Hbad) cur; [contradiction|].
  simpl; destruct Hb as [->|Hb].
  - destruct (bad_verse_num _ Hbad) as [-> ->]; reflexivity.
  - assert (IH' := IH (ex_intro _ b (conj Hb Hbad))).
    destruct (String.eqb (tag c) "verse");
      [destruct (verse_num c) as [n|[]]; simpl; [destruct (in_range s e n)|reflexivity]|];
      rewrite ?IH'; reflexivity.
Qed.

Lemma has_verses_bad (s e : Z) (cs : list element) :
  (exists c, In c cs /\ bad_verse c) ->
  has_verses_in_range s e cs = Err ValueError \/ has_verses_in_range s e cs = Ok true.
Proof.
  induction cs as [|c rest IH]; intros (b & Hb & Hbad); [contradiction|].
  simpl; destruct Hb as [->|Hb].
  - destruct (bad_verse_num _ Hbad) as [-> ->]; left; reflexivity.
  - destruct (String.eqb (tag c) "verse");
      [destruct (verse_num c) as [n|[]]; simpl; [destruct (in_range s e n)|left; reflexivity]|];
      try (right; reflexivity); exact (IH (ex_intro _ b (conj Hb Hbad))).
Qed.

Lemma evfp_bad (p : element) (s e : Z) :
  (exists c, In c (children p) /\ bad_verse c) ->
  extract_verses_from_para p s e = Err ValueError.
Proof.
  intros Hb; unfold extract_verses_from_para.
  destruct (has_verses_bad s e _ Hb) as [-> | ->]; [reflexivity|simpl].
  rewrite (copy_loop_bad s e _ Hb ""); reflexivity.
Qed.

(** X5: A verse marker whose number [int()] rejects (["3a"]) makes the
    paragraph's extraction raise [ValueError], for every range and wherever
    the marker stands in the paragraph: the second loop reads every verse
    number even when the first one stopped before it. *)
Theorem bad_verse_number_raises (p : element) (s e : Z)
  (Hbad : exists c, In c (children p) /\ bad_verse c) :
  extract_verses_from_para p s e = Err ValueError.
Proof. exact (evfp_bad p s e Hbad). Qed.

Lemma bad_verse_number_raises_witness :
  (exists c, In c (children bad_number_para) /\ bad_verse c) /\
  extract_verses_from_para bad_number_para 1 1 = Err ValueError.
Proof.
  assert (H : exists c, In c (children bad_number_para) /\ bad_verse c).
  { exists (verse_marker "3a" "three"); split; [right; right; left; reflexivity|].
    split; [reflexivity|exists "3a"%string; split; reflexivity]. }
  split; [exact H|exact (bad_verse_number_raises bad_number_para 1 1 H)].
Defined.

(** ** Chunks and chapters *)

(** X6: The chapter nodes of a chunk are exactly the chapter start markers of the
    chapter's content, in order: every chunk repeats each start marker, and a
    chapter end marker of the content is never carried into a chunk. *)
Theorem chunk_chapter_nodes (chapter_content out : list element) (n : Z) (ev : option Z) :
  extract_verses_for_chunk chapter_content n ev = Ok out ->
  filter (fun x => String.eqb (tag x) "chapter") out =
  filter is_start_marker chapter_content.
Proof.
  unfold extract_verses_for_chunk.
  generalize (match ev with Some v => v | None => n end) as e; intros e.
  revert out; induction chapter_content as [|el rest IH]; intros out H; simpl in H.
  - inversion H; reflexivity.
  - destruct (String.eqb (tag el) "para") eqn:Ht.
    + destruct (extract_verses_from_para el n e) as [v|] eqn:Hv; simpl in H; [|discriminate].
      destruct (evc_loop n e rest) as [r|] eqn:Hr; simpl in H; [|discriminate].
      assert (Hs : is_start_marker el = false).
      { unfold is_start_marker; apply String.eqb_eq in Ht; rewrite Ht; reflexivity. }
      simpl; rewrite Hs.
      destruct v as [c|]; inversion H; subst; [|exact (IH _ eq_refl)].
      simpl; rewrite (evfp_tag _ _ _ _ Hv); apply String.eqb_eq in Ht; rewrite Ht.
      exact (IH _ eq_refl).
    + simpl; destruct (is_start_marker el) eqn:Hs.
      * destruct (evc_loop n e rest) as [r|] eqn:Hr; simpl in H; [|discriminate].
        inversion H; subst; simpl.
        unfold is_start_marker in Hs; apply andb_prop in Hs as [Hc _]; rewrite Hc.
        f_equal; exact (IH _ eq_refl).
      * exact (IH _ H).
Qed.

Lemma chunk_chapter_nodes_witness :
  extract_verses_for_chunk
    (fst (extract_chapter_content ended_chapter_doc "1")) 1 None =
    Ok [Elem "chapter" [("number", "1"); ("style", "c"); ("sid", "REV 1")]%string None [] None;
        Elem "para" [("style", "p")]%string (Some "one"%string) [verse_marker "1" "one"] None] /\
  filter (fun x => String.eqb (tag x) "chapter")
    [Elem "chapter" [("number", "1"); ("style", "c"); ("sid", "REV 1")]%string None [] None;
     Elem "para" [("style", "p")]%string (Some "one"%string) [verse_marker "1" "one"] None] =
  filter is_start_marker (fst (extract_chapter_content ended_chapter_doc "1")).
Proof.
  assert (H : extract_verses_for_chunk
    (fst (extract_chapter_content ended_chapter_doc "1")) 1 None =
    Ok [Elem "chapter" [("number", "1"); ("style", "c"); ("sid", "REV 1")]%string None [] None;
        Elem "para" [("style", "p")]%string (Some "one"%string) [verse_marker "1" "one"] None])
    by (vm_compute; reflexivity).
  split; [exact H|exact (chunk_chapter_nodes _ _ 1 None H)].
Defined.

Lemma evc_loop_bad (s e : Z) (cs : list element) :
  (exists p, In p cs /\ tag p = "para"%string /\ exists c, In c (children p) /\ bad_verse c) ->
  evc_loop s e cs = Err ValueError.
Proof.
  induction cs as [|el rest IH]; intros (p & Hp & Ht & Hb); [contradiction|].
  simpl; destruct Hp as [->|Hp].
  - rewrite Ht, (evfp_bad p s e Hb); reflexivity.
  - assert (IH' := IH (ex_intro _ p (conj Hp (conj Ht Hb)))).
    destruct (String.eqb (tag el) "para").
    + destruct (extract_verses_from_para el s e) as [v|[]]; simpl; [|reflexivity].
      rewrite IH'; reflexivity.
    + destruct (is_start_marker el); [rewrite IH'|exact IH']; reflexivity.
Qed.

Lemma title_chunk_file_name (out : string) (ch c : yval) (content : list element) (f : file) :
  is_title_chunk c = true -> chunk_file out ch content c = Ok f ->
  file_name f = "title.usx"%string.
Proof.
  unfold chunk_file; intros Ht; rewrite Ht.
  destruct (py_int_y ch); simpl; intros H; inversion H; reflexivity.
Qed.

(** X7: When a paragraph of a chapter's span holds a verse marker whose number
    [int()] rejects, every numbered chunk of the chapter raises
    [ValueError]: [process_chapter] writes only title files, and it stops
    with [ValueError] whenever the TOC lists a numbered chunk. *)
Theorem bad_verse_stops_chapter (usx_content : list element) (out : string)
  (info : toc_entry) fs warns ex
  (Hbad : exists p, In p (fst (extract_chapter_content usx_content (py_str (chapter info)))) /\
          tag p = "para"%string /\ exists c, In c (children p) /\ bad_verse c) :
  process_chapter usx_content out info = (fs, warns, ex) ->
  (forall f, In f fs -> file_name f = "title.usx"%string) /\
  (existsb (fun c => negb (is_title_chunk c)) (chunks info) = true -> ex = Some ValueError).
Proof.
  unfold process_chapter.
  destruct (extract_chapter_content usx_content (py_str (chapter info))) as [content w] eqn:E.
  simpl in Hbad; destruct content as [|x xs]; [destruct Hbad as (p & [] & _)|].
  assert (Hnum : forall c, is_title_chunk c = false ->
                 chunk_file out (chapter info) (x :: xs) c = Err ValueError).
  { intros c Hc; unfold chunk_file; rewrite Hc.
    destruct (py_int_y c) as [n|[]]; simpl; [|reflexivity].
    unfold extract_verses_for_chunk; rewrite (evc_loop_bad n n _ Hbad); reflexivity. }
  destruct (chunk_loop out (chapter info) (x :: xs) (chunks info)) as [fs' ex'] eqn:Hl.
  intros H; inversion H; subst; clear H.
  split.
  - intros f Hf; destruct (chunk_loop_files _ _ _ _ _ _ Hl f Hf) as (c & _ & Hc).
    destruct (is_title_chunk c) eqn:Ht; [exact (title_chunk_file_name _ _ _ _ _ Ht Hc)|].
    rewrite Hnum in Hc by exact Ht; discriminate.
  - revert fs Hl; induction (chunks info) as [|c rest IH]; intros fs Hl Hex; [discriminate|].
    simpl in Hl.
    destruct (chunk_file out (chapter info) (x :: xs) c) as [f|[]] eqn:Hc.
    + destruct (is_title_chunk c) eqn:Ht; [|rewrite Hnum in Hc by exact Ht; discriminate].
      destruct (chunk_loop out (chapter info) (x :: xs) rest) as [fs'' ex''] eqn:Hr.
      inversion Hl; subst; apply (IH fs'' eq_refl).
      simpl in Hex; rewrite Ht in Hex; exact Hex.
    + inversion Hl; reflexivity.
Qed.

Lemma bad_verse_stops_chapter_witness :
  (exists p, In p (fst (extract_chapter_content bad_number_doc
                          (py_str (chapter (mkEntry (YInt 1) [YStr "title"; YInt 1; YInt 2]))))) /\
          tag p = "para"%string /\ exists c, In c (children p) /\ bad_verse c) /\
  process_chapter bad_number_doc "out" (mkEntry (YInt 1) [YStr "title"; YInt 1; YInt 2]) =
    (fst (fst (process_chapter bad_number_doc "out"
                 (mkEntry (YInt 1) [YStr "title"; YInt 1; YInt 2]))), [], Some ValueError) /\
  (forall f, In f (fst (fst (process_chapter bad_number_doc "out"
                               (mkEntry (YInt 1) [YStr "title"; YInt 1; YInt 2])))) ->
             file_name f = "title.usx"%string).
Proof.
  assert (Hb : exists p, In p (fst (extract_chapter_content bad_number_doc
                          (py_str (chapter (mkEntry (YInt 1) [YStr "title"; YInt 1; YInt 2]))))) /\
          tag p = "para"%string /\ exists c, In c (children p) /\ bad_verse c).
  { exists bad_number_para; split; [vm_compute; right; left; reflexivity|split; [reflexivity|]].
    exists (verse_marker "3a" "three"); split; [right; right; left; reflexivity|].
    split; [reflexivity|exists "3a"%string; split; reflexivity]. }
  assert (Hp : process_chapter bad_number_doc "out" (mkEntry (YInt 1) [YStr "title"; YInt 1; YInt 2]) =
    (fst (fst (process_chapter bad_number_doc "out"
                 (mkEntry (YInt 1) [YStr "title"; YInt 1; YInt 2]))), [], Some ValueError))
    by (vm_compute; reflexivity).
  split; [exact Hb|split; [exact Hp|]].
  exact (proj1 (bad_verse_stops_chapter _ _ _ _ _ _ Hb Hp)).
Defined.

(** ** The run over the TOC *)

Lemma match_front {A : Type} (s : string) (x y : A) :
  s <> "front"%string -> match s with "front"%string => x | _ => y end = y.
Proof.
  intros H.
  do 5 (match goal with
        | s : string |- _ => destruct s as [|[[] [] [] [] [] [] [] []] s]; try reflexivity
        end).
  destruct s; [exfalso; apply H; reflexivity|reflexivity].
Qed.

Lemma run_loop_chapter (usx_content : list element) (out : string) (info : toc_entry)
    (rest : list toc_entry) :
  chapter info <> YStr "front" ->
  run_loop usx_content out (info :: rest) =
  let '(fs, w, ex) := process_chapter usx_content out info in
  match ex with
  | Some e => (fs, w, Some e)
  | None =>
      let '(fs', w', ex') := run_loop usx_content out rest in (fs ++ fs', w ++ w', ex')
  end.
Proof.
  intros H; simpl.
  destruct (chapter info) as [z|s]; [reflexivity|].
  apply match_front; intros ->; apply H; reflexivity.
Qed.

(** X8: An exception in a chapter ends the run: the TOC entries after the
    failing chapter are never processed, whatever they are. *)
Theorem exception_stops_run (usx_content : list element) (out : string)
  (pre post : list toc_entry) (info : toc_entry) fs warns e
  (Hch : chapter info <> YStr "front")
  (Hex : process_chapter usx_content out info = (fs, warns, Some e)) :
  run_loop usx_content out (pre ++ info :: post) =
  run_loop usx_content out (pre ++ [info]).
Proof.
  induction pre as [|i pre IH]; simpl app.
  - rewrite !run_loop_chapter by exact Hch; rewrite Hex; reflexivity.
  - simpl run_loop; destruct (chapter i) as [z|s].
    + destruct (process_chapter usx_content out i) as [[fs1 w1] [e1|]]; [reflexivity|].
      rewrite IH; reflexivity.
    + rewrite IH; reflexivity.
Qed.

Lemma exception_stops_run_witness :
  YInt 1 <> YStr "front" /\
  process_chapter bad_number_doc "out" (mkEntry (YInt 1) [YInt 1]) =
    ([], [], Some ValueError) /\
  run_loop bad_number_doc "out"
    ([mkEntry (YInt 2) [YInt 1]] ++ mkEntry (YInt 1) [YInt 1] :: [mkEntry (YInt 2) [YInt 1]]) =
  run_loop bad_number_doc "out" ([mkEntry (YInt 2) [YInt 1]] ++ [mkEntry (YInt 1) [YInt 1]]).
Proof.
  assert (Hc : chapter (mkEntry (YInt 1) [YInt 1]) <> YStr "front") by discriminate.
  assert (Hp : process_chapter bad_number_doc "out" (mkEntry (YInt 1) [YInt 1]) =
               ([], [], Some ValueError)) by (vm_compute; reflexivity).
  split; [exact Hc|split; [exact Hp|]].
  exact (exception_stops_run bad_number_doc "out" [mkEntry (YInt 2) [YInt 1]]
           [mkEntry (YInt 2) [YInt 1]] _ _ _ _ Hc Hp).
Defined.

(** ** Indentation *)

Lemma element_ind' (P : element -> Prop)
  (H : forall g a x cs tl, Forall P cs -> P (Elem g a x cs tl)) : forall e, P e.
Proof.
  exact (fix rec (e : element) : P e :=
           let 'Elem g a x cs tl := e in
           H g a x cs tl
             ((fix go (l : list element) : Forall P l :=
                 match l with
                 | [] => Forall_nil P
                 | c :: r => Forall_cons c (rec c) (go r)
                 end) cs)).
Qed.

Lemma indent_cons_eq (l : nat) g a x c cs tl :
  indent_xml l (Elem g a x (c :: cs) tl) =
  Elem g a (if blank x then Some ((nl ++ spaces l) ++ "  ")%string else x)
       (fix_last (nl ++ spaces l) (map (indent_xml (S l)) (c :: cs)))
       (if blank tl then Some (nl ++ spaces l)%string else tl).
Proof. reflexivity. Qed.

Lemma indent_nil_eq (l : nat) g a x tl :
  indent_xml l (Elem g a x [] tl) =
  Elem g a x [] (if negb (Nat.eqb l 0) && blank tl then Some (nl ++ spaces l)%string else tl).
Proof. reflexivity. Qed.

Lemma erase_ws_eq g a x cs tl :
  erase_ws (Elem g a x cs tl) =
  Elem g a (if blank x then None else x) (map erase_ws cs) (if blank tl then None else tl).
Proof. reflexivity. Qed.

Lemma fix_last_cons (i : string) (c : element) (r : list element) :
  r <> [] -> fix_last i (c :: r) = c :: fix_last i r.
Proof. destruct r; [contradiction|reflexivity]. Qed.

Lemma fix_last_nil (i : string) (l : list element) : fix_last i l = [] -> l = [].
Proof. destruct l as [|c [|d r]]; simpl; congruence. Qed.

Lemma erase_fix_last (i : string) (l : list element) :
  blank (Some i) = true -> map erase_ws (fix_last i l) = map erase_ws l.
Proof.
  intros Hi; induction l as [|c r IH]; [reflexivity|].
  destruct r as [|d r].
  - simpl; destruct (blank (tail c)) eqn:Hb; [|reflexivity].
    destruct c as [g a x cs tl]; cbn [tail] in Hb; cbn [map set_tail].
    rewrite !erase_ws_eq, Hi, Hb; reflexivity.
  - rewrite fix_last_cons by discriminate.
    change (erase_ws c :: map erase_ws (fix_last i (d :: r)) =
            erase_ws c :: map erase_ws (d :: r)).
    rewrite IH; reflexivity.
Qed.

Lemma erase_ws_indent (level : nat) (e : element) :
  erase_ws (indent_xml level e) = erase_ws e.
Proof.
  revert level; induction e as [g a x cs tl IH] using element_ind'; intros l.
  destruct cs as [|c cs].
  - rewrite indent_nil_eq, !erase_ws_eq; f_equal.
    destruct (Nat.eqb l 0); cbn [negb andb]; [reflexivity|].
    destruct (blank tl) eqn:Hb; [rewrite indent_blank|cbv beta iota; rewrite ?Hb]; reflexivity.
  - rewrite indent_cons_eq, !erase_ws_eq; f_equal.
    + destruct (blank x) eqn:Hb; [rewrite indent_text_blank|cbv beta iota; rewrite ?Hb]; reflexivity.
    + rewrite erase_fix_last by apply indent_blank.
      rewrite map_map; apply map_ext_in; intros d Hd.
      rewrite Forall_forall in IH; apply IH; exact Hd.
    + destruct (blank tl) eqn:Hb; [rewrite indent_blank|cbv beta iota; rewrite ?Hb]; reflexivity.
Qed.

(** X9: [_indent_xml] changes only whitespace: read with every unset or
    whitespace-only text and tail taken as unset, the indented tree is the
    tree it was given (tags, attributes, the nesting, and every text or tail
    holding a non-space character are left alone). *)
Theorem indent_changes_only_whitespace (level : nat) (e : element) :
  erase_ws (indent_xml level e) = erase_ws e.
Proof. exact (erase_ws_indent level e). Qed.

Lemma indent_set_tail (l : nat) (e : element) (t : option string) :
  Nat.eqb l 0 = false -> blank (tail e) = true -> blank t = true ->
  indent_xml l (set_tail e t) = indent_xml l e.
Proof.
  intros Hl He Ht; destruct e as [g a x [|c cs] tl]; cbn [tail set_tail] in He |- *.
  - rewrite !indent_nil_eq, Hl, He, Ht; reflexivity.
  - rewrite !indent_cons_eq, He, Ht; reflexivity.
Qed.

Lemma fix_last_idem (i : string) (f : element -> element) (L : list element) :
  (forall y, In y L -> f y = y) ->
  (forall y, blank (tail y) = true -> f (set_tail y (Some i)) = f y) ->
  fix_last i (map f (fix_last i L)) = fix_last i L.
Proof.
  intros Hfix Hset; induction L as [|y r IH]; [reflexivity|].
  destruct r as [|z r].
  - simpl; destruct (blank (tail y)) eqn:Hb.
    + rewrite Hset by exact Hb; rewrite (Hfix y (or_introl eq_refl)); simpl; rewrite Hb; reflexivity.
    + rewrite (Hfix y (or_introl eq_refl)); simpl; rewrite Hb; reflexivity.
  - rewrite fix_last_cons by discriminate.
    set (W := fix_last i (z :: r)) in *.
    assert (HW : W <> []) by (unfold W; intros Hn; apply fix_last_nil in Hn; discriminate).
    change (map f (y :: W)) with (f y :: map f W).
    rewrite (Hfix y (or_introl eq_refl)).
    rewrite fix_last_cons by (intros Hn; apply map_eq_nil in Hn; contradiction).
    rewrite IH; [reflexivity|intros w Hw; apply Hfix; right; exact Hw].
Qed.

(** X10: [_indent_xml] is idempotent: indenting an indented tree again, at the
    same level, changes nothing. *)
Theorem indent_idempotent (level : nat) (e : element) :
  indent_xml level (indent_xml level e) = indent_xml level e.
Proof.
  revert level; induction e as [g a x cs tl IH] using element_ind'; intros l.
  destruct cs as [|c cs].
  - rewrite !indent_nil_eq; f_equal.
    destruct (Nat.eqb l 0); cbn [negb andb]; [reflexivity|].
    destruct (blank tl) eqn:Hb; [rewrite indent_blank|cbv beta iota; rewrite ?Hb]; reflexivity.
  - rewrite indent_cons_eq.
    destruct (fix_last (nl ++ spaces l) (map (indent_xml (S l)) (c :: cs)))
      as [|c' cs'] eqn:E; [apply fix_last_nil in E; discriminate|].
    rewrite indent_cons_eq, <- E; f_equal.
    + destruct (blank x) eqn:Hb; [rewrite indent_text_blank|cbv beta iota; rewrite ?Hb]; reflexivity.
    + apply fix_last_idem.
      * intros y Hy; apply in_map_iff in Hy as (d & <- & Hd).
        rewrite Forall_forall in IH; apply IH; exact Hd.
      * intros y Hy; apply indent_set_tail; [reflexivity|exact Hy|apply indent_blank].
    + destruct (blank tl) eqn:Hb; [rewrite indent_blank|cbv beta iota; rewrite ?Hb]; reflexivity.
Qed.

(** ** Front matter *)

Lemma front_loop_eq (els : list element) :
  front_loop els = filter is_front (before_chapter els).
Proof.
  induction els as [|el rest IH]; [reflexivity|].
  change (front_loop (el :: rest)) with
    (if is_front el then el :: front_loop rest
     else if String.eqb (tag el) "chapter" then [] else front_loop rest).
  change (before_chapter (el :: rest)) with
    (if String.eqb (tag el) "chapter" then [] else el :: before_chapter rest).
  destruct (is_front el) eqn:Hf.
  - assert (Hc : String.eqb (tag el) "chapter" = false).
    { unfold is_front in Hf; apply andb_prop in Hf as [Hb _]; simpl in Hb.
      destruct (String.eqb_spec (tag el) "book") as [->|_]; [reflexivity|].
      destruct (String.eqb_spec (tag el) "para") as [->|_]; [reflexivity|discriminate]. }
    rewrite Hc; simpl filter; rewrite Hf, IH; reflexivity.
  - destruct (String.eqb (tag el) "chapter"); [reflexivity|].
    simpl filter; rewrite Hf; exact IH.
Qed.

(** X11: The front matter is written only when some top-level node before the
    first chapter node is a [book] or [para] node with a front-matter style;
    the file [front/title.usx] then holds exactly those nodes, in document
    order (nothing after the first chapter node). *)
Theorem front_matter_nodes (usx_content : list element) (out : string) :
  (filter is_front (before_chapter usx_content) = [] ->
   process_front_matter usx_content out = []) /\
  (forall f, In f (process_front_matter usx_content out) ->
     fpath f = [out; "front"; "title.usx"]%string /\
     map shape (children (froot f)) = map shape (filter is_front (before_chapter usx_content)) /\
     map erase_ws (children (froot f)) =
       map erase_ws (filter is_front (before_chapter usx_content))).
Proof.
  unfold process_front_matter; rewrite front_loop_eq.
  destruct (filter is_front (before_chapter usx_content)) as [|x xs] eqn:E.
  - split; [reflexivity|intros f []].
  - split; [discriminate|].
    intros f [<-|[]]; cbn [fpath froot]; split; [reflexivity|split].
    + rewrite indent_children_shape; reflexivity.
    + rewrite <- E.
      pose proof (erase_ws_indent 0 (usx_root (x :: xs))) as H.
      unfold usx_root in H; rewrite !erase_ws_eq in H; injection H as H.
      rewrite E; unfold usx_root; exact H.
Qed.

(** ** Output paths *)

Lemma read_string_of_int (d : Decimal.int) :
  read_int (NilZero.string_of_int d) = Some (Z.of_int d).
Proof.
  destruct d as [u|u]; destruct u;
    first [unfold read_int; rewrite NilZero.isi by discriminate; reflexivity | reflexivity].
Qed.

Lemma read_fmt02 (z : Z) : read_int (fmt02 z) = Some z.
Proof.
  unfold fmt02; destruct ((0 <=? z) && (z <? 10)) eqn:H.
  - apply andb_prop in H as [H1 H2]; apply Z.leb_le in H1; apply Z.ltb_lt in H2.
    assert (Hz : z = 0 \/ z = 1 \/ z = 2 \/ z = 3 \/ z = 4 \/ z = 5 \/ z = 6 \/ z = 7 \/
                 z = 8 \/ z = 9) by lia.
    repeat destruct Hz as [->|Hz]; [..|subst]; vm_compute; reflexivity.
  - unfold py_str_int; rewrite read_string_of_int, DecimalZ.of_to; reflexivity.
Qed.

Lemma fmt02_inj (z w : Z) : fmt02 z = fmt02 w -> z = w.
Proof.
  intros H; assert (E : read_int (fmt02 z) = read_int (fmt02 w)) by (rewrite H; reflexivity).
  rewrite !read_fmt02 in E; injection E as E; exact E.
Qed.

Lemma string_length_app (s t : string) :
  String.length (s ++ t) = (String.length s + String.length t)%nat.
Proof. induction s as [|a s IH]; simpl; [reflexivity|rewrite IH; reflexivity]. Qed.

Lemma string_app_inj_r (s1 s2 t : string) : (s1 ++ t = s2 ++ t)%string -> s1 = s2.
Proof.
  revert s2; induction s1 as [|a s1 IH]; intros [|b s2] H.
  - reflexivity.
  - apply (f_equal String.length) in H; simpl in H; rewrite string_length_app in H; lia.
  - apply (f_equal String.length) in H; simpl in H; rewrite string_length_app in H; lia.
  - simpl in H; injection H as -> H; f_equal; exact (IH s2 H).
Qed.

(** X12: Two chunk files get the same path only when they are written for the
    same output directory, the same chapter, and both as title files or both
    as the same numbered chunk: distinct chunk numbers (or a title file and
    a numbered chunk) of one chapter never overwrite each other. *)
Theorem chunk_paths_distinct (out out' : string) (ch ch' n n' : Z)
  (content content' : list element) (is_title is_title' : bool) :
  fpath (create_chunk_file out ch n content is_title) =
  fpath (create_chunk_file out' ch' n' content' is_title') ->
  out = out' /\ ch = ch' /\ is_title = is_title' /\ (is_title = false -> n = n').
Proof.
  unfold create_chunk_file; cbn [fpath]; intros H; injection H as Ho Hc Hf.
  apply fmt02_inj in Hc.
  assert (Ht : forall m, "title.usx"%string <> (fmt02 m ++ ".usx")%string).
  { intros m Hm; change ("title.usx"%string) with ("title" ++ ".usx")%string in Hm.
    apply string_app_inj_r in Hm.
    assert (E : read_int "title" = read_int (fmt02 m)) by (rewrite Hm; reflexivity).
    rewrite read_fmt02 in E; discriminate. }
  destruct is_title, is_title'.
  - repeat split; auto; discriminate.
  - exfalso; exact (Ht _ Hf).
  - exfalso; exact (Ht _ (eq_sym Hf)).
  - repeat split; auto; intros _; apply string_app_inj_r in Hf; exact (fmt02_inj _ _ Hf).
Qed.

Lemma chunk_paths_distinct_witness :
  fpath (create_chunk_file "out" 7 12 [] false) = fpath (create_chunk_file "out" 7 12 [] false) /\
  ("out"%string = "out"%string /\ 7 = 7 /\ false = false /\ (false = false -> 12 = 12)).
Proof.
  assert (H : fpath (create_chunk_file "out" 7 12 [] false) =
              fpath (create_chunk_file "out" 7 12 [] false)) by reflexivity.
  split; [exact H|exact (chunk_paths_distinct _ _ _ _ _ _ _ _ _ _ H)].
Defined.

Lemma chunk_file_path (out : string) (ch c : yval) (content : list element) (f : file) :
  chunk_file out ch content c = Ok f -> chunk_path out ch c = Ok (fpath f).
Proof.
  unfold chunk_file, chunk_path; destruct (is_title_chunk c).
  - destruct (py_int_y ch); simpl; intros H; inversion H; reflexivity.
  - destruct (py_int_y c) as [n|]; simpl; [|discriminate].
    destruct (extract_verses_for_chunk content n None); simpl; [|discriminate].
    destruct (py_int_y ch); simpl; intros H; inversion H; reflexivity.
Qed.

(** X13: When a chapter is found and processed without an exception,
    [process_chapter] writes one file per TOC chunk, in TOC order:
    [<output>/<NN>/title.usx] for a ["title"] chunk and
    [<output>/<NN>/<MM>.usx] for chunk [MM], [NN] the chapter number. *)
Theorem chapter_files_follow_toc (usx_content : list element) (out : string)
  (info : toc_entry) fs warns
  (Hfound : fst (extract_chapter_content usx_content (py_str (chapter info))) <> []) :
  process_chapter usx_content out info = (fs, warns, None) ->
  Forall2 (fun c f => chunk_path out (chapter info) c = Ok (fpath f)) (chunks info) fs.
Proof.
  unfold process_chapter.
  destruct (extract_chapter_content usx_content (py_str (chapter info))) as [content w].
  simpl in Hfound; destruct content as [|x xs]; [contradiction|].
  destruct (chunk_loop out (chapter info) (x :: xs) (chunks info)) as [fs' ex'] eqn:Hl.
  intros H; inversion H; subst; clear H.
  revert fs Hl; induction (chunks info) as [|c rest IH]; intros fs Hl; simpl in Hl.
  - inversion Hl; constructor.
  - destruct (chunk_file out (chapter info) (x :: xs) c) as [f|e] eqn:Hc; [|discriminate].
    destruct (chunk_loop out (chapter info) (x :: xs) rest) as [fs'' ex''] eqn:Hr.
    inversion Hl; subst; constructor; [exact (chunk_file_path _ _ _ _ _ Hc)|exact (IH _ eq_refl)].
Qed.

Lemma chapter_files_follow_toc_witness :
  fst (extract_chapter_content sample_chapter (py_str (chapter (mkEntry (YInt 1) [YStr "title"; YInt 1; YInt 2])))) <> [] /\
  process_chapter sample_chapter "out" (mkEntry (YInt 1) [YStr "title"; YInt 1; YInt 2]) =
    (fst (fst (process_chapter sample_chapter "out"
                 (mkEntry (YInt 1) [YStr "title"; YInt 1; YInt 2]))), [], None) /\
  Forall2 (fun c f => chunk_path "out" (YInt 1) c = Ok (fpath f)) [YStr "title"; YInt 1; YInt 2]
    (fst (fst (process_chapter sample_chapter "out"
                 (mkEntry (YInt 1) [YStr "title"; YInt 1; YInt 2])))).
Proof.
  assert (Hf : fst (extract_chapter_content sample_chapter
                 (py_str (chapter (mkEntry (YInt 1) [YStr "title"; YInt 1; YInt 2])))) <> [])
    by (vm_compute; discriminate).
  assert (Hp : process_chapter sample_chapter "out" (mkEntry (YInt 1) [YStr "title"; YInt 1; YInt 2]) =
    (fst (fst (process_chapter sample_chapter "out"
                 (mkEntry (YInt 1) [YStr "title"; YInt 1; YInt 2]))), [], None))
    by (vm_compute; reflexivity).
  split; [exact Hf|split; [exact Hp|]].
  exact (chapter_files_follow_toc _ _ _ _ _ Hf Hp).
Defined.

(** ** Title files *)

Lemma title_content_nodes (chapter_content : list element) :
  forall x, In x (extract_title_content chapter_content) ->
  (tag x = "para"%string /\ opt_in (get x "style") title_styles = true) \/
  is_start_marker x = true.
Proof.
  induction chapter_content as [|el rest IH]; intros x Hx; [contradiction|].
  simpl in Hx.
  destruct (String.eqb (tag el) "para" && opt_in (get el "style") title_styles) eqn:Hp.
  - destruct Hx as [<-|Hx]; [|exact (IH x Hx)].
    apply andb_prop in Hp as [Ht Hs]; apply String.eqb_eq in Ht; left; split; assumption.
  - destruct (is_start_marker el) eqn:Hs; [destruct Hx as [<-|Hx]; [right; exact Hs|]|];
      exact (IH x Hx).
Qed.

Lemma in_map_shape (l1 l2 : list element) (x : element) :
  map shape l1 = map shape l2 -> In x l1 -> exists y, In y l2 /\ shape x = shape y.
Proof.
  revert l2; induction l1 as [|a r IH]; intros [|b r'] H Hx; try discriminate; [contradiction|].
  pose proof (f_equal (@List.hd _ (""%string, [])) H) as Hab.
  pose proof (f_equal (@List.tl _) H) as Hr; cbn [List.hd List.tl map] in Hab, Hr.
  destruct Hx as [<-|Hx]; [exists b; split; [left; reflexivity|exact Hab]|].
  destruct (IH r' Hr Hx) as (y & Hy & Hs); exists y; split; [right; exact Hy|exact Hs].
Qed.

(** X14: A title file is named [title.usx] and its top-level nodes are the
    chapter's title paragraphs (styles [s1]-[s3], [mt1]-[mt3]) and chapter
    start markers only: it has no book node and no chapter end marker. *)
Theorem title_file_nodes (out : string) (ch c : yval) (content : list element) (f : file)
  (Ht : is_title_chunk c = true) :
  chunk_file out ch content c = Ok f ->
  file_name f = "title.usx"%string /\
  forall x, In x (children (froot f)) ->
    (tag x = "para"%string /\ opt_in (get x "style") title_styles = true) \/
    is_start_marker x = true.
Proof.
  intros H; split; [exact (title_chunk_file_name _ _ _ _ _ Ht H)|].
  unfold chunk_file in H; rewrite Ht in H.
  destruct (py_int_y ch) as [z|]; simpl in H; [|discriminate].
  injection H as <-; intros x Hx.
  unfold create_chunk_file in Hx; cbn [froot] in Hx.
  pose proof (indent_children_shape 0
               (usx_root ([] ++ extract_title_content content ++ []))) as Hs.
  rewrite app_nil_r in Hs, Hx; cbn [app] in Hs, Hx.
  destruct (in_map_shape _ _ x Hs Hx) as (y & Hy & Hxy).
  unfold shape in Hxy; injection Hxy as Htag Hat.
  unfold is_start_marker, get; rewrite Htag, Hat.
  exact (title_content_nodes content y Hy).
Qed.

Lemma title_file_nodes_witness :
  is_title_chunk (YStr "title") = true /\
  chunk_file "out" (YInt 1) sample_chapter (YStr "title") =
    Ok (create_chunk_file "out" 1 0 (extract_title_content sample_chapter) true) /\
  file_name (create_chunk_file "out" 1 0 (extract_title_content sample_chapter) true) =
    "title.usx"%string.
Proof.
  assert (Ht : is_title_chunk (YStr "title") = true) by reflexivity.
  assert (Hc : chunk_file "out" (YInt 1) sample_chapter (YStr "title") =
    Ok (create_chunk_file "out" 1 0 (extract_title_content sample_chapter) true))
    by reflexivity.
  split; [exact Ht|split; [exact Hc|]].
  exact (proj1 (title_file_nodes _ _ _ _ _ Ht Hc)).
Defined.

(** ** Paragraphs of a chunk *)

Lemma has_true_spec (s e : Z) (cs : list element) :
  has_verses_in_range s e cs = Ok true ->
  exists v n, In v cs /\ tag v = "verse"%string /\ verse_num v = Ok n /\ in_range s e n = true.
Proof.
  induction cs as [|c rest IH]; simpl; [discriminate|].
  destruct (String.eqb (tag c) "verse") eqn:Ht.
  - destruct (verse_num c) as [n|] eqn:Hn; simpl; [|discriminate].
    destruct (in_range s e n) eqn:Hr; intros H.
    + exists c, n; apply String.eqb_eq in Ht; repeat split; auto; left; reflexivity.
    + destruct (IH H) as (v & m & Hv & R); exists v, m; split; [right|]; assumption.
  - intros H; destruct (IH H) as (v & m & Hv & R); exists v, m; split; [right|]; assumption.
Qed.

Lemma evfp_has_verse (p c : element) (s e : Z) :
  extract_verses_from_para p s e = Ok (Some c) ->
  exists v n, In v (children c) /\ tag v = "verse"%string /\ verse_num v = Ok n /\
              in_range s e n = true.
Proof.
  unfold extract_verses_from_para; intros H.
  destruct (has_verses_in_range s e (children p)) as [b|] eqn:Hh; simpl in H; [|discriminate].
  destruct b; simpl in H; [|discriminate].
  destruct (copy_loop s e "" (children p)) as [[ks t]|] eqn:Hc; simpl in H; [|discriminate].
  destruct (has_true_spec _ _ _ Hh) as (v & n & Hv & Ht & Hn & Hr).
  exists v, n; split; [|auto].
  assert (Hk : In v ks).
  { rewrite (copy_loop_kept _ _ _ _ _ _ Hc); apply filter_In; split; [exact Hv|].
    unfold kept_child; rewrite Ht, Hn; exact Hr. }
  match type of H with
  | (if ?b then _ else _) = _ => destruct b
  end; inversion H; subst; exact Hk.
Qed.

(** X15: Every paragraph of a verse chunk holds at least one verse marker
    numbered in the chunk's range: a paragraph copy is never empty of the
    chunk's verses. *)
Theorem chunk_paras_hold_range_verse (chapter_content out : list element) (s e : Z) :
  extract_verses_for_chunk chapter_content s (Some e) = Ok out ->
  forall x, In x out -> tag x = "para"%string ->
  exists v n, In v (children x) /\ tag v = "verse"%string /\ verse_num v = Ok n /\
              in_range s e n = true.
Proof.
  unfold extract_verses_for_chunk.
  revert out; induction chapter_content as [|el rest IH]; intros out H x Hx Htx; simpl in H.
  - inversion H; subst; contradiction.
  - destruct (String.eqb (tag el) "para") eqn:Ht.
    + destruct (extract_verses_from_para el s e) as [v|] eqn:Hv; simpl in H; [|discriminate].
      destruct (evc_loop s e rest) as [r|] eqn:Hr; simpl in H; [|discriminate].
      destruct v as [c|]; inversion H; subst; [|exact (IH _ eq_refl x Hx Htx)].
      destruct Hx as [<-|Hx]; [exact (evfp_has_verse _ _ _ _ Hv)|exact (IH _ eq_refl x Hx Htx)].
    + destruct (is_start_marker el) eqn:Hs.
      * destruct (evc_loop s e rest) as [r|] eqn:Hr; simpl in H; [|discriminate].
        inversion H; subst; destruct Hx as [<-|Hx]; [|exact (IH _ eq_refl x Hx Htx)].
        unfold is_start_marker in Hs; apply andb_prop in Hs as [Hc _].
        rewrite Htx in Hc; discriminate.
      * exact (IH _ H x Hx Htx).
Qed.

Lemma chunk_paras_hold_range_verse_witness :
  extract_verses_for_chunk [five_verse_para] 2 (Some 3) =
    Ok [Elem "para" [("style", "p")]%string (Some "Lead two three "%string)
          [verse_marker "2" "two "; verse_marker "3" "three "] None] /\
  exists v n, In v [verse_marker "2" "two "; verse_marker "3" "three "] /\
              tag v = "verse"%string /\ verse_num v = Ok n /\ in_range 2 3 n = true.
Proof.
  assert (H : extract_verses_for_chunk [five_verse_para] 2 (Some 3) =
    Ok [Elem "para" [("style", "p")]%string (Some "Lead two three "%string)
          [verse_marker "2" "two "; verse_marker "3" "three "] None])
    by (vm_compute; reflexivity).
  split; [exact H|].
  exact (chunk_paras_hold_range_verse _ _ 2 3 H _ (or_introl eq_refl) eq_refl).
Defined.
